(** * Concept disambiguation engine of [metadata_pipeline_torch_only.py]

    A shallow embedding of the module-level warm-up loop, of
    [get_embedding] and of [disambiguate_entity], together with the
    properties the specification states about them.

    Conventions of the embedding:
    - a Python [dict] is an association list in insertion order
      (module [Dict]); assigning to a key that is present replaces the value
      in place, assigning to a new key appends;
    - a raised exception is the left injection of a sum, carrying the text
      that [str(e)] would print;
    - the module-level global [ontology_embeddings], the lines written by
      [print] and the texts handed to the BioBERT model are threaded through
      a state monad [M];
    - the tokenizer and model (transformers / torch),
      [sklearn.metrics.pairwise.cosine_similarity] and the builtin [repr]
      are external: they are variables of the section [Engine]. *)

From Stdlib Require Import List String Ascii Bool Arith Lia.
From Stdlib Require Import Floats.
From Stdlib Require DecimalString.
Import ListNotations.
Local Open Scope list_scope.
Local Open Scope string_scope.

Set Implicit Arguments.

(** ** Python values used by the script *)

(** [str(e)] of a raised exception. *)
Definition exn : Type := string.

(** Truthiness of a [str]: the empty string is falsy. *)
Definition str_truthy (s : string) : bool :=
  match s with
  | EmptyString => false
  | String _ _ => true
  end.

(** [str(n)] for a non-negative integer. *)
Definition str_nat (n : nat) : string :=
  DecimalString.NilEmpty.string_of_uint (Nat.to_uint n).

(** ** Insertion-ordered dictionaries *)

Module Dict.

Definition dict (V : Type) : Type := list (string * V).

Definition empty {V : Type} : dict V := [].

(** [not d] is true exactly for the empty dict. *)
Definition is_empty {V : Type} (d : dict V) : bool :=
  match d with
  | [] => true
  | _ :: _ => false
  end.

Definition len {V : Type} (d : dict V) : nat := List.length d.

Definition keys {V : Type} (d : dict V) : list string := map fst d.

Definition values {V : Type} (d : dict V) : list V := map snd d.

Definition items {V : Type} (d : dict V) : list (string * V) := d.

(** [d.get(k)]: [None] when the key is absent. *)
Fixpoint get {V : Type} (d : dict V) (k : string) : option V :=
  match d with
  | [] => None
  | (k', v) :: d' => if String.eqb k' k then Some v else get d' k
  end.

(** [d[k] = v]. *)
Fixpoint set {V : Type} (d : dict V) (k : string) (v : V) : dict V :=
  match d with
  | [] => [(k, v)]
  | (k', v') :: d' =>
      if String.eqb k' k then (k', v) :: d' else (k', v') :: set d' k v
  end.

(** [d[k]]: raises [KeyError(k)] when the key is absent. The text of that
    exception, [str(KeyError(k))], is [repr(k)]; the builtin [repr] on [str]
    is the argument [repr]. *)
Definition subscript {V : Type} (repr : string -> string) (d : dict V)
    (k : string) : exn + V :=
  match get d k with
  | Some v => inr v
  | None => inl (repr k)
  end.

(** A dict literal [{k1: v1, ...}]. *)
Definition literal {V : Type} (l : list (string * V)) : dict V :=
  fold_left (fun d kv => set d (fst kv) (snd kv)) l empty.

End Dict.

Import Dict.

(** ** The engine *)

Section Engine.

(** An embedding (a numpy array) and a similarity score (a numpy float). *)
Variable vec : Type.
Variable score : Type.

(** Lines 59-65: tokenizer, model and mean pooling; may raise. *)
Variable biobert : string -> exn + vec.

(** [cosine_similarity(a, b)[0][0]]; may raise. *)
Variable cosine_similarity : vec -> vec -> exn + score.

(** [x > y] on scores. *)
Variable gtb : score -> score -> bool.

(** The module-level dict [ontology_terms]: term -> (code, code system). *)
Variable ontology_terms : dict (string * string).

(** The builtin [repr] on a [str]. *)
Variable py_repr : string -> string.

(** *** State *)

Record world : Type := mkWorld {
  ontology_embeddings : dict vec;
  stdout : list string;
  model_calls : list string
}.

Definition M (A : Type) : Type := world -> A * world.

Definition ret {A : Type} (a : A) : M A := fun w => (a, w).

Definition bind {A B : Type} (m : M A) (f : A -> M B) : M B :=
  fun w => let (a, w') := m w in f a w'.

Definition print (line : string) : M unit :=
  fun w => (tt, mkWorld (ontology_embeddings w) (stdout w ++ [line])%list (model_calls w)).

Definition read_embeddings : M (dict vec) :=
  fun w => (ontology_embeddings w, w).

Definition write_embeddings (d : dict vec) : M unit :=
  fun w => (tt, mkWorld d (stdout w) (model_calls w)).

Definition run_model (text : string) : M (exn + vec) :=
  fun w => (biobert text,
            mkWorld (ontology_embeddings w) (stdout w) (model_calls w ++ [text])%list).

Local Notation "x <- c1 ;; c2" := (bind c1 (fun x => c2))
  (at level 100, c1 at next level, right associativity).
Local Notation "c1 ;; c2" := (bind c1 (fun _ => c2))
  (at level 100, right associativity).

(** *** [get_embedding] (lines 55-69) *)

(** The line printed at line 68. *)
Definition embedding_error (text : string) (e : exn) : string :=
  "Error generating embedding for text '" ++ text ++ "': " ++ e.

Definition get_embedding (text : string) : M (option vec) :=
  r <- run_model text ;;
  match r with
  | inr embedding => ret (Some embedding)
  | inl e =>
      print (embedding_error text e) ;;
      ret None
  end.

(** *** Warm-up of the cache (lines 84-94) *)

(** The [for i, term in enumerate(ontology_terms.keys())] loop. *)
Fixpoint warm_loop (i : nat) (terms : list string) : M unit :=
  match terms with
  | [] => ret tt
  | term :: rest =>
      print ("  Processing " ++ str_nat (i + 1) ++ "/"
             ++ str_nat (len ontology_terms) ++ ": " ++ term) ;;
      embedding <- get_embedding term ;;
      match embedding with
      | Some e =>
          cache <- read_embeddings ;;
          write_embeddings (set cache term e)
      | None =>
          print ("    Warning: Failed to generate embedding for '" ++ term ++ "'")
      end ;;
      warm_loop (S i) rest
  end.

Definition warm_up : M unit :=
  print "Generating embeddings for ontology terms..." ;;
  write_embeddings empty ;;
  warm_loop 0 (keys ontology_terms) ;;
  cache <- read_embeddings ;;
  print ("Generated embeddings for " ++ str_nat (len cache) ++ "/"
         ++ str_nat (len ontology_terms) ++ " ontology terms.").

(** *** The built-in [max(iterable, key=...)] *)

(** [x > y] where either side may be [None] (what [dict.get] returns for a
    missing key): comparing with [None] raises [TypeError]. *)
Definition py_gt (x y : option score) : exn + bool :=
  match x, y with
  | Some a, Some b => inr (gtb a b)
  | _, _ => inl "'>' not supported between instances of 'NoneType' and 'float'"
  end.

(** The first item is taken as it is; a later item replaces the current
    one only when its key is strictly greater. *)
Fixpoint max_loop (key : string -> option score) (maxitem : string)
    (maxval : option score) (it : list string) : exn + string :=
  match it with
  | [] => inr maxitem
  | item :: it' =>
      let val := key item in
      match py_gt val maxval with
      | inl e => inl e
      | inr true => max_loop key item val it'
      | inr false => max_loop key maxitem maxval it'
      end
  end.

Definition py_max (it : list string) (key : string -> option score) : exn + string :=
  match it with
  | [] => inl "max() arg is an empty sequence"
  | item :: it' => max_loop key item (key item) it'
  end.

(** *** [disambiguate_entity] (lines 96-126) *)

(** What the function returns: a 3-tuple whose components may be [None]. *)
Definition result : Type := (option string * option string * option string)%type.

Definition none3 : result := (None, None, None).

Definition matched_term (r : result) : option string := fst (fst r).

(** Line 103. *)
Definition candidate_text (term context : string) : string :=
  if str_truthy context then term ++ " " ++ context else term.

(** Lines 109-116: the loop filling [similarities]. *)
Fixpoint similarity_loop (candidate_embedding : vec) (its : list (string * vec))
    (similarities : dict score) : M (dict score) :=
  match its with
  | [] => ret similarities
  | (k, v) :: rest =>
      match cosine_similarity candidate_embedding v with
      | inr sim => similarity_loop candidate_embedding rest (set similarities k sim)
      | inl e =>
          print ("Error computing similarity for " ++ k ++ ": " ++ e) ;;
          similarity_loop candidate_embedding rest similarities
      end
  end.

(** Lines 103-123, the body of the outer [try]: [inl e] when an exception
    [e] escapes it. *)
Definition disambiguate_try (term context : string) : M (exn + result) :=
  candidate_embedding <- get_embedding (candidate_text term context) ;;
  match candidate_embedding with
  | None => ret (inr none3)
  | Some ce =>
      cache <- read_embeddings ;;
      similarities <- similarity_loop ce (items cache) empty ;;
      if is_empty similarities then
        print "Error: No similarities computed." ;;
        ret (inr none3)
      else
        match py_max (keys similarities) (get similarities) with
        | inl e => ret (inl e)
        | inr best_match =>
            match subscript py_repr ontology_terms best_match with
            | inl e => ret (inl e)
            | inr entry0 =>
                match subscript py_repr ontology_terms best_match with
                | inl e => ret (inl e)
                | inr entry1 =>
                    ret (inr (Some best_match, Some (fst entry0), Some (snd entry1)))
                end
            end
        end
  end.

Definition disambiguate_entity (term context : string) : M result :=
  cache <- read_embeddings ;;
  if is_empty cache then
    print "Error: No ontology embeddings available." ;;
    ret none3
  else
    r <- disambiguate_try term context ;;
    match r with
    | inr res => ret res
    | inl e =>
        print ("Error in disambiguate_entity: " ++ e) ;;
        ret none3
    end.

(** *** The failures of the specification, as the script shows them

    Every failure returns the same triple [(None, None, None)]; what tells
    them apart is what was printed and whether the model was called. *)

(** Line 99-100. *)
Definition CacheEmpty (w : world) (out : result * world) : Prop :=
  out = (none3,
         mkWorld (ontology_embeddings w)
           (stdout w ++ ["Error: No ontology embeddings available."])%list
           (model_calls w)).

(** Lines 104-107: the model was called on [text] and raised. *)
Definition EmbeddingUnavailable (text : string) (w : world)
    (out : result * world) : Prop :=
  exists e : exn,
    out = (none3,
           mkWorld (ontology_embeddings w)
             (stdout w ++ [embedding_error text e])%list
             (model_calls w ++ [text])%list).

(** Lines 118-120. *)
Definition NoMatchFound (out : result * world) : Prop :=
  fst out = none3
  /\ last (stdout (snd out)) "" = "Error: No similarities computed.".

(** The texts handed to the model while [m] runs from [w]. *)
Definition calls_during {A : Type} (m : M A) (w : world) : list string :=
  skipn (List.length (model_calls w)) (model_calls (snd (m w))).

(** *** The process: import of the module, then queries *)

(** The state before line 84 runs. *)
Definition boot : world := mkWorld empty [] [].

(** The state once the module is imported. *)
Definition imported : world := snd (warm_up boot).

(** The state after a sequence of [(term, context)] queries. *)
Fixpoint serve (queries : list (string * string)) (w : world) : world :=
  match queries with
  | [] => w
  | (term, context) :: rest =>
      serve rest (snd (disambiguate_entity term context w))
  end.

End Engine.

(** ** Scores that [>] orders *)

Section Order.

Variable score : Type.
Variable gtb : score -> score -> bool.

(** [>] restricted to the scores of [l] is asymmetric and negatively
    transitive, so that "maximum of [l]" has a meaning (a NaN among the
    scores breaks it). *)
Definition ordered_scores (l : list score) : bool :=
  forallb (fun x =>
    forallb (fun y =>
      forallb (fun z =>
        (negb (gtb x y) || negb (gtb y x))
        && (gtb x y || gtb y z || negb (gtb x z))) l) l) l.

End Order.

(** ** [repr] on a [str] of ASCII characters *)

Module PyRepr.

Definition single_quote : ascii := "039"%char.
Definition double_quote : ascii := "034"%char.
Definition backslash : ascii := "092"%char.

Fixpoint contains (c : ascii) (s : string) : bool :=
  match s with
  | EmptyString => false
  | String c' s' => Ascii.eqb c c' || contains c s'
  end.

Definition hex_digit (n : nat) : ascii :=
  nth n ["0"; "1"; "2"; "3"; "4"; "5"; "6"; "7"; "8"; "9";
         "a"; "b"; "c"; "d"; "e"; "f"]%char "0"%char.

(** How one character is written between the quotes. *)
Definition escape (quote c : ascii) : string :=
  let n := nat_of_ascii c in
  if Ascii.eqb c quote || Ascii.eqb c backslash then String backslash (String c "")
  else if Nat.eqb n 9 then String backslash "t"
  else if Nat.eqb n 10 then String backslash "n"
  else if Nat.eqb n 13 then String backslash "r"
  else if Nat.ltb n 32 || Nat.eqb n 127 then
    String backslash
      (String "x" (String (hex_digit (n / 16)) (String (hex_digit (n mod 16)) "")))
  else String c "".

Fixpoint escape_all (quote : ascii) (s : string) : string :=
  match s with
  | EmptyString => ""
  | String c s' => escape quote c ++ escape_all quote s'
  end.

(** [repr(s)]: single quotes, or double quotes when [s] holds a single
    quote and no double quote; the quote in use, the backslash and the
    control characters are escaped. A byte above 0x7f is copied, as [repr]
    does for the printable characters outside ASCII. *)
Definition repr (s : string) : string :=
  let quote :=
    if contains single_quote s && negb (contains double_quote s) then double_quote
    else single_quote in
  String quote (escape_all quote s ++ String quote "").

End PyRepr.

(** ** Cosine similarity on float vectors *)

Module Cosine.

Local Open Scope float_scope.

(** The single row of the [(1, d)] array that [get_embedding] returns; its
    entries and the scores are IEEE 754 binary64 numbers. *)
Definition vector : Type := list float.

Fixpoint dot (a b : vector) : float :=
  match a, b with
  | x :: a', y :: b' => x * y + dot a' b'
  | _, _ => 0
  end.

Definition norm (a : vector) : float := sqrt (dot a a).

(** [sklearn.preprocessing.normalize] on one row: each entry over the
    Euclidean norm of the row, a zero norm counting as 1. *)
Definition normalize (a : vector) : vector :=
  let n := if PrimFloat.eqb (norm a) 0 then 1 else norm a in
  map (fun x => x / n) a.

(** [check_array]: no NaN and no infinity among the entries. *)
Definition all_finite (a : vector) : bool := forallb PrimFloat.is_finite a.

(** [sklearn.metrics.pairwise.cosine_similarity(a, b)[0][0]] on two rows.
    The function is third-party code, absent from the repository; this
    follows its algorithm: both inputs are validated (finite entries, at
    least one column, the same number of columns, a [ValueError] otherwise),
    each is normalised, and the result is the dot product of the two
    normalised rows. There is no failure on a zero vector: its score is 0.
    The arithmetic is binary64, as numpy does it on float64 arrays; the
    arrays of the script are float32, whose rounding is not reproduced, and
    the wording of the exceptions varies with the version of the library.
    The theorems on the engine are generic in the comparison; this instance
    serves the concrete inputs, small vectors on which both agree. *)
Definition cosine_similarity (a b : vector) : exn + float :=
  if negb (all_finite a && all_finite b) then
    inl "Input contains NaN, infinity or a value too large for dtype('float64')."%string
  else if Nat.eqb (List.length a) 0 then
    inl ("Found array with 0 feature(s) (shape=(1, 0)) while a minimum of 1 is "
         ++ "required by check_pairwise_arrays.")%string
  else if Nat.eqb (List.length b) 0 then
    inl ("Found array with 0 feature(s) (shape=(1, 0)) while a minimum of 1 is "
         ++ "required by check_pairwise_arrays.")%string
  else if negb (Nat.eqb (List.length a) (List.length b)) then
    inl ("Incompatible dimension for X and Y matrices: X.shape[1] == "
         ++ str_nat (List.length a) ++ " while Y.shape[1] == "
         ++ str_nat (List.length b))%string
  else
    inr (dot (normalize a) (normalize b)).

(** [x > y] on floats. *)
Definition gtb (x y : float) : bool := PrimFloat.ltb y x.

End Cosine.

(** ** Concrete ontologies and embedding models *)

Module Samples.

Local Open Scope float_scope.

(** The table of lines 74-82. *)
Definition ontology_terms : dict (string * string) :=
  literal
    [ ("Hypertension", ("38341003", "SNOMED CT"));
      ("Diabetes Mellitus", ("44054006", "SNOMED CT"));
      ("Common Cold", ("82272006", "SNOMED CT"));
      ("Cold Temperature", ("C0009264", "UMLS"));
      ("Metformin", ("860975", "RxNorm"));
      ("Insulin", ("28518", "RxNorm"));
      ("Atorvastatin", ("83367", "RxNorm")) ]%string.

(** The ontology of the specification's scenarios. *)
Definition two_terms : dict (string * string) :=
  literal
    [ ("Hypertension", ("38341003", "SNOMED CT"));
      ("Diabetes", ("44054006", "SNOMED CT")) ]%string.

(** A model that fails on every text. *)
Definition failing_model (text : string) : exn + Cosine.vector :=
  inl "model unavailable"%string.

(** A deterministic model whose two ontology vectors are parallel. *)
Definition parallel_model (text : string) : exn + Cosine.vector :=
  if String.eqb text "Hypertension" then inr [1; 0]
  else if String.eqb text "Diabetes" then inr [2; 0]
  else inr [0; 1].

(** A deterministic model with orthogonal ontology vectors. *)
Definition orthogonal_model (text : string) : exn + Cosine.vector :=
  if String.eqb text "Hypertension" then inr [1; 0]
  else if String.eqb text "Diabetes" then inr [0; 1]
  else inr [3; 4].

(** A deterministic model that embeds the two ontology terms and raises on
    every other text. *)
Definition partial_model (text : string) : exn + Cosine.vector :=
  if String.eqb text "Hypertension" then inr [1; 0]
  else if String.eqb text "Diabetes" then inr [0; 1]
  else inl "tokenizer error"%string.

(** A deterministic model whose vectors for the ontology terms have two
    entries and whose vectors for every other text have three. *)
Definition mismatched_model (text : string) : exn + Cosine.vector :=
  if String.eqb text "Hypertension" then inr [1; 0]
  else if String.eqb text "Diabetes" then inr [0; 1]
  else inr [1; 2; 3].

(** A deterministic model that embeds every text as the zero vector. *)
Definition zero_model (text : string) : exn + Cosine.vector :=
  inr [0; 0].

Definition run (model : string -> exn + Cosine.vector)
    (ontology : dict (string * string)) (term context : string) :=
  disambiguate_entity model Cosine.cosine_similarity Cosine.gtb ontology
    PyRepr.repr term context (imported model ontology).

End Samples.

(** ** What the loops leave behind, entry by entry *)

Section Transcripts.

Variables vec score : Type.
Variable biobert : string -> exn + vec.
Variable cosine_similarity : vec -> vec -> exn + score.
Variable ontology_terms : dict (string * string).

(** The cache entry an ontology term contributes during warm-up. *)
Definition cached_entry (k : string) : list (string * vec) :=
  match biobert k with
  | inr v => [(k, v)]
  | inl _ => []
  end.

(** The lines one turn of the warm-up loop prints for the term [snd it] at
    index [fst it]. *)
Definition warm_lines (it : nat * string) : list string :=
  ("  Processing " ++ str_nat (fst it + 1) ++ "/" ++ str_nat (len ontology_terms)
   ++ ": " ++ snd it)
  :: match biobert (snd it) with
     | inr _ => []
     | inl e =>
         [embedding_error (snd it) e;
          "    Warning: Failed to generate embedding for '" ++ snd it ++ "'"]
     end.

(** The line printed at line 94. *)
Definition summary_line (n m : nat) : string :=
  "Generated embeddings for " ++ str_nat n ++ "/" ++ str_nat m
  ++ " ontology terms.".

(** The score a cache entry contributes to [similarities]. *)
Definition scored_entry (ce : vec) (kv : string * vec) : list (string * score) :=
  match cosine_similarity ce (snd kv) with
  | inr sim => [(fst kv, sim)]
  | inl _ => []
  end.

(** The line a cache entry makes the similarity loop print. *)
Definition comparison_lines (ce : vec) (kv : string * vec) : list string :=
  match cosine_similarity ce (snd kv) with
  | inr _ => []
  | inl e => ["Error computing similarity for " ++ fst kv ++ ": " ++ e]
  end.

End Transcripts.

(** ** The example run of the script (lines 131-147) *)

(** [s * n] on a [str]. *)
Fixpoint str_times (s : string) (n : nat) : string :=
  match n with
  | 0 => ""
  | S n' => s ++ str_times s n'
  end.

(** What an f-string writes for a value that is [None] or a [str]. *)
Definition fstr (o : option string) : string :=
  match o with
  | Some s => s
  | None => "None"
  end.

(** Truthiness of a value that is [None] or a [str]. *)
Definition truthy (o : option string) : bool :=
  match o with
  | Some s => str_truthy s
  | None => false
  end.

Section MainBlock.

Variables vec score : Type.
Variable biobert : string -> exn + vec.
Variable cosine_similarity : vec -> vec -> exn + score.
Variable gtb : score -> score -> bool.
Variable ontology_terms : dict (string * string).

(** The builtin [repr] on a [str]. *)
Variable py_repr : string -> string.

(** Lines 142-148: the body of the loop over the examples. *)
Definition run_example (term ctx : string) : M vec unit :=
  bind (@print vec ("Input: " ++ term ++ " | Context: " ++ ctx)) (fun _ =>
  bind (disambiguate_entity biobert cosine_similarity gtb ontology_terms py_repr term ctx)
    (fun r =>
  bind (if truthy (fst (fst r)) then
          @print vec ("→ Disambiguated as: " ++ fstr (fst (fst r))
                     ++ " | Code: " ++ fstr (snd (fst r))
                     ++ " | Source: " ++ fstr (snd r))
        else
          @print vec "→ Disambiguation failed") (fun _ =>
  @print vec (str_times "-" 80)))).

Fixpoint examples_loop (examples : list (string * string)) : M vec unit :=
  match examples with
  | [] => @ret vec unit tt
  | (term, ctx) :: rest =>
      bind (run_example term ctx) (fun _ => examples_loop rest)
  end.

(** Lines 132-136. *)
Definition examples : list (string * string) :=
  [ ("cold", "Patient presented with fever and runny nose");
    ("cold", "Patient exposed to cold weather conditions");
    ("Metformin", "Diabetic patient prescribed Metformin") ].

Definition main : M vec unit :=
  bind (@print vec (String "010"%char "Running disambiguation examples:")) (fun _ =>
  bind (@print vec (str_times "=" 80)) (fun _ =>
  examples_loop examples)).

End MainBlock.

(** ** The catalog builder of [metadata_pipeline.py_Step1.py] *)

Section Catalog.

(** A cell of a data frame, with its equality and its [str(...)]. *)
Variable value : Type.
Variable value_eq_dec : forall x y : value, {x = y} + {x <> y}.
Variable str : value -> string.

(** A column of a data frame; [None] is a missing value (NaN). *)
Definition series : Type := list (option value).

(** A data frame: its columns in file order, under their names. *)
Definition dataframe : Type := dict series.

(** [pd.read_csv(file_path)]; may raise. *)
Variable read_csv : string -> exn + dataframe.

(** The module-level dict [normalization_dict] (lines 52-60). *)
Variable normalization_dict : dict (string * string).

(** Lines 62-65; [term in d] holds exactly when [d.get(term)] finds an
    entry. *)
Definition normalize_term (term : string) : option string * option string :=
  match get normalization_dict term with
  | Some entry => (Some (fst entry), Some (snd entry))
  | None => (None, None)
  end.

(** [Series.dropna()]. *)
Fixpoint dropna (s : series) : list value :=
  match s with
  | [] => []
  | Some v :: rest => v :: dropna rest
  | None :: rest => dropna rest
  end.

(** [Series.unique()]: the distinct values in order of first appearance. *)
Fixpoint unique_from (seen l : list value) : list value :=
  match l with
  | [] => []
  | x :: rest =>
      if in_dec value_eq_dec x seen then unique_from seen rest
      else x :: unique_from (x :: seen) rest
  end.

Definition unique (l : list value) : list value := unique_from [] l.

(** [df[col].dropna().unique()[:50]]. *)
Definition sample_values (s : series) : list value :=
  firstn 50 (unique (dropna s)).

(** One row of the catalog (the dict of lines 79-86). *)
Record catalog_entry : Type := mkEntry {
  dataset : string;
  original_field : string;
  dublin_core_field : string;
  sample_value : value;
  normalized_concept : string;
  ontology_source : string
}.

(** [x if x else ""] for an [x] that is [None] or a [str]. *)
Definition or_empty (x : option string) : string :=
  if truthy x then fstr x else "".

(** Lines 78-86: the row built for one sampled value. *)
Definition catalog_row (dataset_name col dc_field : string) (val : value)
    : catalog_entry :=
  let (norm_id, source) := normalize_term (str val) in
  mkEntry dataset_name col dc_field val (or_empty norm_id) (or_empty source).

(** Lines 77-86: the loop over the sampled values of one column. *)
Fixpoint values_loop (dataset_name col dc_field : string) (vals : list value)
    (catalog_entries : list catalog_entry) : list catalog_entry :=
  match vals with
  | [] => catalog_entries
  | val :: rest =>
      values_loop dataset_name col dc_field rest
        (catalog_entries ++ [catalog_row dataset_name col dc_field val])%list
  end.

(** Lines 74-86: the loop over [df.columns]; [df[col]] is the series that
    comes with the column name. *)
Fixpoint columns_loop (dataset_name : string) (mappings : dict string)
    (columns : list (string * series)) (catalog_entries : list catalog_entry)
    : list catalog_entry :=
  match columns with
  | [] => catalog_entries
  | (col, s) :: rest =>
      match get mappings col with
      | Some dc_field =>
          columns_loop dataset_name mappings rest
            (values_loop dataset_name col dc_field (sample_values s) catalog_entries)
      | None => columns_loop dataset_name mappings rest catalog_entries
      end
  end.

(** The rows one column contributes. *)
Definition column_rows (dataset_name : string) (mappings : dict string)
    (column : string * series) : list catalog_entry :=
  match get mappings (fst column) with
  | Some dc_field =>
      map (catalog_row dataset_name (fst column) dc_field)
        (sample_values (snd column))
  | None => []
  end.

(** Lines 70-87; an exception of [read_csv] is not caught. *)
Definition process_dataset (file_path dataset_name : string)
    (mappings : dict string) : exn + list catalog_entry :=
  match read_csv file_path with
  | inl e => inl e
  | inr df => inr (columns_loop dataset_name mappings (items df) [])
  end.

(** The module-level dicts [mappings] (lines 6-47) and [files] (92-97). *)
Variable mappings : dict (dict string).

(** The builtin [repr] on a [str]. *)
Variable py_repr : string -> string.
Variable files : dict string.

(** Lines 99-102: the loop over [files.items()]. *)
Fixpoint files_loop (fs : list (string * string))
    (all_entries : list catalog_entry) : exn + list catalog_entry :=
  match fs with
  | [] => inr all_entries
  | (dataset_name, file_path) :: rest =>
      match subscript py_repr mappings dataset_name with
      | inl e => inl e
      | inr mapping =>
          match process_dataset file_path dataset_name mapping with
          | inl e => inl e
          | inr entries => files_loop rest (all_entries ++ entries)%list
          end
      end
  end.

(** What one file contributes to a run without failure: its rows, under the
    mapping of its dataset. *)
Definition file_rows (f : string * string) (part : list catalog_entry) : Prop :=
  exists mapping,
    get mappings (fst f) = Some mapping
    /\ process_dataset (snd f) (fst f) mapping = inr part.

(** The rows handed to [pd.DataFrame] at line 107. *)
Definition all_entries : exn + list catalog_entry :=
  files_loop (items files) [].

End Catalog.

(** ** The tables of [metadata_pipeline.py_Step1.py] and a small data frame *)

Module CatalogSamples.

(** Lines 52-60. *)
Definition normalization_dict : dict (string * string) :=
  literal
    [ ("Hypertension", ("38341003", "SNOMED CT"));
      ("Diabetes", ("44054006", "SNOMED CT"));
      ("Metformin", ("860975", "RxNorm"));
      ("Insulin", ("28518", "RxNorm"));
      ("Atorvastatin", ("83367", "RxNorm"));
      ("Asthma", ("195967001", "SNOMED CT"));
      ("Cancer", ("363346000", "SNOMED CT")) ].

(** Lines 7-13. *)
Definition ehr_mapping : dict string :=
  literal
    [ ("patient_id", "identifier");
      ("diagnosis", "subject");
      ("treatment", "description");
      ("visit_date", "date");
      ("outcome", "coverage") ].

(** Lines 6-47, the "EHR" dataset only. *)
Definition mappings : dict (dict string) := literal [ ("EHR", ehr_mapping) ].

Definition files : dict string := literal [ ("EHR", "ehr.csv") ].

(** A data frame of text cells with an unmapped column, a repeated value
    and a missing one. *)
Definition ehr_frame : dict (list (option string)) :=
  [ ("diagnosis", [Some "Hypertension"; Some "Flu"; Some "Hypertension"; None]);
    ("ward", [Some "A"; Some "B"; Some "A"; Some "C"]);
    ("treatment", [Some "Metformin"; None; Some "Rest"; Some "Rest"]) ].

Definition read_csv (file_path : string) : exn + dict (list (option string)) :=
  if String.eqb file_path "ehr.csv" then inr ehr_frame
  else inl ("[Errno 2] No such file or directory: '" ++ file_path ++ "'").

Definition str (v : string) : string := v.

Definition process (file_path : string) :=
  process_dataset string_dec str read_csv normalization_dict
    file_path "EHR" ehr_mapping.

(** The catalog of [ehr_frame]. *)
Definition ehr_rows : list (catalog_entry string) :=
  Eval vm_compute in
    match process "ehr.csv" with
    | inr rows => rows
    | inl _ => []
    end.

End CatalogSamples.

(** ** More inputs for the engine *)

Module EngineSamples.

(** A cache with a key that is no ontology term, and one with a vector of
    another dimension. *)
Definition orphan_world : world Cosine.vector :=
  mkWorld [("Orphan", [1; 0]%float)] [] [].

Definition cache_with_mismatch : dict Cosine.vector :=
  [("Hypertension", [1; 0]%float); ("Diabetes", [1; 2; 3]%float)].

(** Scores with a tie at the maximum. *)
Definition tied_scores : dict float :=
  [("a", 0.5%float); ("b", 1%float); ("c", 1%float)].

End EngineSamples.

(** * Properties *)

Unset Implicit Arguments.

(** ** Facts about dictionaries *)

Module DictFacts.

Section Facts.

Variable V : Type.
Implicit Types (d : dict V) (k : string) (v : V).

Lemma get_set_same d k v : get (set d k v) k = Some v.
Proof.
  induction d as [|[k' v'] d IH]; simpl.
  - now rewrite String.eqb_refl.
  - destruct (String.eqb k' k) eqn:E; simpl; rewrite E; auto.
Qed.

Lemma get_set_other d k k' v : k <> k' -> get (set d k v) k' = get d k'.
Proof.
  intros Hne. induction d as [|[k0 v0] d IH]; simpl.
  - destruct (String.eqb_spec k k'); congruence.
  - destruct (String.eqb_spec k0 k) as [->|Hk]; simpl.
    + destruct (String.eqb_spec k k'); congruence.
    + now rewrite IH.
Qed.

Lemma keys_set d k v k' :
  In k' (keys (set d k v)) <-> k' = k \/ In k' (keys d).
Proof.
  induction d as [|[k0 v0] d IH]; simpl.
  - intuition.
  - destruct (String.eqb_spec k0 k) as [->|Hk]; simpl.
    + intuition.
    + rewrite IH. intuition.
Qed.

Lemma NoDup_set d k v : NoDup (keys d) -> NoDup (keys (set d k v)).
Proof.
  induction d as [|[k0 v0] d IH]; simpl; intros Hnd.
  - constructor; [intros []|constructor].
  - inversion Hnd as [|? ? Hnin Hnd']; subst.
    destruct (String.eqb_spec k0 k) as [->|Hk]; simpl.
    + now constructor.
    + constructor; [|now apply IH].
      fold (keys (set d k v)). rewrite keys_set. intuition.
Qed.

Lemma get_Some_In d k v : get d k = Some v -> In (k, v) d.
Proof.
  induction d as [|[k0 v0] d IH]; simpl; [discriminate|].
  destruct (String.eqb_spec k0 k) as [->|Hk]; intros H.
  - left. congruence.
  - right. now apply IH.
Qed.

Lemma In_get_Some d k v : NoDup (keys d) -> In (k, v) d -> get d k = Some v.
Proof.
  induction d as [|[k0 v0] d IH]; simpl; intros Hnd Hin; [easy|].
  inversion Hnd as [|? ? Hnin Hnd']; subst.
  destruct Hin as [Heq|Hin].
  - inversion Heq; subst. now rewrite String.eqb_refl.
  - destruct (String.eqb_spec k0 k) as [->|Hk]; [|now apply IH].
    exfalso. apply Hnin. change k with (fst (k, v)). now apply in_map.
Qed.

Lemma get_Some_key d k v : get d k = Some v -> In k (keys d).
Proof.
  intros H. apply get_Some_In in H. change k with (fst (k, v)).
  now apply in_map.
Qed.

Lemma get_Some_value d k v : get d k = Some v -> In v (values d).
Proof.
  intros H. apply get_Some_In in H. change v with (snd (k, v)).
  now apply in_map.
Qed.

Lemma key_get_Some d k : In k (keys d) -> exists v, get d k = Some v.
Proof.
  induction d as [|[k0 v0] d IH]; simpl; [easy|].
  intros [->|Hin].
  - rewrite String.eqb_refl. eauto.
  - destruct (String.eqb k0 k); eauto.
Qed.

Lemma get_None_key d k : get d k = None -> ~ In k (keys d).
Proof.
  intros H Hin. apply key_get_Some in Hin as [v Hv]. congruence.
Qed.

(** Writing the value a key already has leaves the dict as it is. *)
Lemma set_same_value d k v : get d k = Some v -> set d k v = d.
Proof.
  induction d as [|[k0 v0] d IH]; simpl; [discriminate|].
  destruct (String.eqb_spec k0 k) as [->|Hk]; intros H.
  - congruence.
  - now rewrite IH.
Qed.

Lemma is_empty_true d : is_empty d = true <-> d = [].
Proof. destruct d; simpl; split; congruence. Qed.

Lemma set_not_empty d k v : is_empty (set d k v) = false.
Proof.
  destruct d as [|[k0 v0] d]; simpl; [reflexivity|].
  now destruct (String.eqb k0 k).
Qed.

End Facts.

End DictFacts.


(** ** Facts about the order on scores and about [max] *)

Section MaxFacts.

Variable score : Type.
Variable gtb : score -> score -> bool.
Variable L : list score.
Hypothesis HL : ordered_scores gtb L = true.

Lemma ordered_pointwise x y z :
  In x L -> In y L -> In z L ->
  (negb (gtb x y) || negb (gtb y x)) && (gtb x y || gtb y z || negb (gtb x z)) = true.
Proof.
  intros Hx Hy Hz. unfold ordered_scores in HL.
  rewrite forallb_forall in HL. specialize (HL x Hx).
  rewrite forallb_forall in HL. specialize (HL y Hy).
  rewrite forallb_forall in HL. exact (HL z Hz).
Qed.

Lemma ordered_asym x y : In x L -> In y L -> gtb x y = true -> gtb y x = false.
Proof.
  intros Hx Hy Hxy. pose proof (ordered_pointwise x y x Hx Hy Hx) as H.
  rewrite Hxy in H. simpl in H. destruct (gtb y x); [discriminate|reflexivity].
Qed.

Lemma ordered_negtrans x y z :
  In x L -> In y L -> In z L ->
  gtb x y = false -> gtb y z = false -> gtb x z = false.
Proof.
  intros Hx Hy Hz Hxy Hyz. pose proof (ordered_pointwise x y z Hx Hy Hz) as H.
  rewrite Hxy, Hyz in H. simpl in H. destruct (gtb x z); [discriminate|reflexivity].
Qed.

Variable key : string -> option score.

(** With the order on the scores, [max_loop] returns an item whose key
    nothing seen exceeds. *)
Lemma max_loop_max (it : list string) :
  forall maxitem mv,
    key maxitem = Some mv -> In mv L ->
    (forall k, In k it -> exists s, key k = Some s /\ In s L) ->
    exists m s,
      max_loop gtb key maxitem (Some mv) it = inr m
      /\ key m = Some s
      /\ (m = maxitem \/ In m it)
      /\ In s L
      /\ gtb mv s = false
      /\ (forall k s', In k it -> key k = Some s' -> gtb s' s = false).
Proof.
  induction it as [|item it IH]; intros maxitem mv Hkey Hmv Hall.
  - exists maxitem, mv. simpl. repeat split; auto.
    + destruct (gtb mv mv) eqn:E; [|reflexivity].
      now rewrite (ordered_asym mv mv Hmv Hmv E) in E.
    + intros k s' [].
  - destruct (Hall item (or_introl eq_refl)) as (val & Hval & HvalL).
    assert (Hall' : forall k, In k it -> exists s, key k = Some s /\ In s L)
      by (intros k Hk; apply Hall; now right).
    simpl. rewrite Hval. simpl. destruct (gtb val mv) eqn:Hgt.
    + destruct (IH item val Hval HvalL Hall') as (m & s & Hm & Hs & Hin & HsL & Hle & Hrest).
      exists m, s. repeat split; auto.
      * destruct Hin; [right; left; congruence|right; now right].
      * apply ordered_negtrans with (y := val); auto.
        now apply ordered_asym.
      * intros k s' [<-|Hk] Hks'; [congruence|eauto].
    + destruct (IH maxitem mv Hkey Hmv Hall') as (m & s & Hm & Hs & Hin & HsL & Hle & Hrest).
      exists m, s. repeat split; auto.
      * destruct Hin; [now left|right; now right].
      * intros k s' [<-|Hk] Hks'; [|eauto].
        assert (s' = val) by congruence. subst s'.
        apply ordered_negtrans with (y := mv); auto.
Qed.

End MaxFacts.

Section MaxTotal.

Variable score : Type.
Variable gtb : score -> score -> bool.

(** When every item has a key, [max_loop] raises nothing and returns one
    of the items. *)
Lemma max_loop_total (key : string -> option score) (it : list string) :
  forall maxitem mv,
    (forall k, In k it -> exists s, key k = Some s) ->
    exists m, max_loop gtb key maxitem (Some mv) it = inr m
              /\ (m = maxitem \/ In m it).
Proof.
  induction it as [|item it IH]; intros maxitem mv Hall.
  - exists maxitem. simpl. auto.
  - destruct (Hall item (or_introl eq_refl)) as (val & Hval).
    assert (Hall' : forall k, In k it -> exists s, key k = Some s)
      by (intros k Hk; apply Hall; now right).
    simpl. rewrite Hval. simpl. destruct (gtb val mv).
    + destruct (IH item val Hall') as (m & Hm & Hin).
      exists m. split; auto. destruct Hin; [right; left; congruence|right; now right].
    + destruct (IH maxitem mv Hall') as (m & Hm & Hin).
      exists m. split; auto. destruct Hin; [now left|right; now right].
Qed.

Lemma py_max_total (d : dict score) :
  is_empty d = false ->
  exists m, py_max gtb (keys d) (get d) = inr m /\ In m (keys d).
Proof.
  destruct d as [|[k0 v0] d]; [discriminate|]. intros _.
  assert (Hk0 : get ((k0, v0) :: d) k0 = Some v0) by (simpl; now rewrite String.eqb_refl).
  unfold py_max. cbn [keys map fst]. rewrite Hk0.
  destruct (max_loop_total (get ((k0, v0) :: d)) (keys d) k0 v0) as (m & Hm & Hin).
  - intros k Hk. apply DictFacts.key_get_Some. now right.
  - exists m. split; [exact Hm|]. cbn [keys map fst]. destruct Hin; [left; congruence|now right].
Qed.

End MaxTotal.

(** ** Facts about the engine *)

Section EngineFacts.

Variables vec score : Type.
Variable biobert : string -> exn + vec.
Variable cosine_similarity : vec -> vec -> exn + score.
Variable gtb : score -> score -> bool.
Variable ontology_terms : dict (string * string).

Implicit Types (w : world vec) (ce v : vec) (k term context : string).

(** *** The similarity loop *)

Lemma similarity_loop_fst ce (its : list (string * vec)) :
  forall (sims0 : dict score) w1 w2,
    fst (similarity_loop cosine_similarity ce its sims0 w1)
    = fst (similarity_loop cosine_similarity ce its sims0 w2).
Proof.
  induction its as [|[k0 v0] rest IH]; intros sims0 w1 w2; simpl.
  - reflexivity.
  - destruct (cosine_similarity ce v0); [|apply IH].
    unfold bind, print. apply IH.
Qed.

Lemma similarity_loop_world ce (its : list (string * vec)) :
  forall (sims0 : dict score) w,
    ontology_embeddings (snd (similarity_loop cosine_similarity ce its sims0 w))
    = ontology_embeddings w
    /\ model_calls (snd (similarity_loop cosine_similarity ce its sims0 w))
       = model_calls w.
Proof.
  induction its as [|[k0 v0] rest IH]; intros sims0 w; simpl.
  - auto.
  - destruct (cosine_similarity ce v0); [|apply IH].
    unfold bind, print.
    match goal with |- context [similarity_loop _ _ _ _ ?w'] =>
      destruct (IH sims0 w') as [H1 H2] end.
    simpl in H1, H2. auto.
Qed.

Lemma similarity_loop_keys ce (its : list (string * vec)) :
  forall (sims0 : dict score) w k,
    In k (keys (fst (similarity_loop cosine_similarity ce its sims0 w))) ->
    In k (keys sims0) \/ In k (keys its).
Proof.
  induction its as [|[k0 v0] rest IH]; intros sims0 w k; simpl.
  - auto.
  - destruct (cosine_similarity ce v0).
    + unfold bind, print. intros H. apply IH in H.
    destruct H as [H|H]; [now left|right; now right].
    + intros H. apply IH in H. rewrite DictFacts.keys_set in H.
      destruct H as [[->|H]|H]; auto.
Qed.

Lemma similarity_loop_NoDup ce (its : list (string * vec)) :
  forall (sims0 : dict score) w,
    NoDup (keys sims0) ->
    NoDup (keys (fst (similarity_loop cosine_similarity ce its sims0 w))).
Proof.
  induction its as [|[k0 v0] rest IH]; intros sims0 w Hnd; simpl.
  - exact Hnd.
  - destruct (cosine_similarity ce v0).
    + unfold bind, print. now apply IH.
    + apply IH. now apply DictFacts.NoDup_set.
Qed.

(** What [similarities] holds for a key once the loop is over. *)
Lemma similarity_loop_get ce (its : list (string * vec)) :
  forall (sims0 : dict score) w k s,
    NoDup (keys its) ->
    get (fst (similarity_loop cosine_similarity ce its sims0 w)) k = Some s
    <-> (exists v, In (k, v) its /\ cosine_similarity ce v = inr s)
        \/ ((forall v s', In (k, v) its -> cosine_similarity ce v <> inr s')
            /\ get sims0 k = Some s).
Proof.
  induction its as [|[k0 v0] rest IH]; intros sims0 w k s Hnd.
  - simpl. split.
    + intros H. right. split; [intros v s' []|exact H].
    + intros [(v & [] & _)|[_ H]]. exact H.
  - simpl in Hnd. inversion Hnd as [|? ? Hnin Hnd']; subst.
    simpl. destruct (cosine_similarity ce v0) as [e|sim] eqn:E.
    + unfold bind, print. rewrite (IH _ _ _ _ Hnd'). split.
      * intros [(v & Hin & Hc)|[Hall Hg]].
        -- left. exists v. auto.
        -- right. split; [|exact Hg].
           intros v s' [Heq|Hin]; [inversion Heq; subst; congruence|eauto].
      * intros [(v & [Heq|Hin] & Hc)|[Hall Hg]].
        -- inversion Heq; subst. congruence.
        -- left. eauto.
        -- right. split; [|exact Hg]. intros v s' Hin. apply Hall. now right.
    + rewrite (IH _ _ _ _ Hnd'). split.
      * intros [(v & Hin & Hc)|[Hall Hg]].
        -- left. exists v. auto.
        -- destruct (string_dec k0 k) as [->|Hne].
           ++ rewrite DictFacts.get_set_same in Hg. left. exists v0.
              split; [now left|congruence].
           ++ rewrite DictFacts.get_set_other in Hg by exact Hne.
              right. split; [|exact Hg].
              intros v s' [Heq|Hin]; [inversion Heq; subst; congruence|eauto].
      * intros [(v & [Heq|Hin] & Hc)|[Hall Hg]].
        -- inversion Heq; subst. right. split.
           ++ intros v' s' Hin. exfalso. apply Hnin.
              change k with (fst (k, v')). now apply in_map.
           ++ rewrite DictFacts.get_set_same. congruence.
        -- left. eauto.
        -- assert (Hne : k0 <> k).
           { intros ->. apply (Hall v0 sim); [now left|exact E]. }
           right. split.
           ++ intros v s' Hin. apply Hall. now right.
           ++ now rewrite DictFacts.get_set_other.
Qed.

(** When every comparison raises, [similarities] stays as it was. *)
Lemma similarity_loop_all_fail ce (its : list (string * vec)) :
  forall (sims0 : dict score) w,
    (forall k v, In (k, v) its -> exists e, cosine_similarity ce v = inl e) ->
    fst (similarity_loop cosine_similarity ce its sims0 w) = sims0.
Proof.
  induction its as [|[k0 v0] rest IH]; intros sims0 w Hall; simpl.
  - reflexivity.
  - destruct (Hall k0 v0 (or_introl eq_refl)) as [e ->].
    unfold bind, print. apply IH. intros k v Hin. apply (Hall k v). now right.
Qed.

(** A comparison that succeeds leaves [similarities] non-empty. *)
Lemma similarity_loop_some ce (its : list (string * vec)) :
  forall (sims0 : dict score) w,
    is_empty sims0 = false
    \/ (exists k v s, In (k, v) its /\ cosine_similarity ce v = inr s) ->
    is_empty (fst (similarity_loop cosine_similarity ce its sims0 w)) = false.
Proof.
  induction its as [|[k0 v0] rest IH]; intros sims0 w H; simpl.
  - destruct H as [H|(k & v & s & [] & _)]. exact H.
  - destruct (cosine_similarity ce v0) as [e|sim] eqn:E.
    + unfold bind, print. apply IH.
      destruct H as [H|(k & v & s & [Heq|Hin] & Hc)]; [now left| |right; eauto].
      inversion Heq; subst. congruence.
    + apply IH. left. apply DictFacts.set_not_empty.
Qed.

(** *** Warm-up *)

(** One turn of the warm-up loop, as a function of the state. *)
Lemma warm_loop_cons i term (rest : list string) w :
  exists out,
    snd (warm_loop biobert ontology_terms i (term :: rest) w)
    = snd (warm_loop biobert ontology_terms (S i) rest
             (mkWorld
                (match biobert term with
                 | inr e => set (ontology_embeddings w) term e
                 | inl _ => ontology_embeddings w
                 end)
                out
                (model_calls w ++ [term])%list)).
Proof.
  simpl. unfold bind, print, get_embedding, bind, run_model, print, ret,
    read_embeddings, write_embeddings. simpl.
  destruct (biobert term) as [e|e]; simpl; eexists; reflexivity.
Qed.

Lemma warm_loop_calls (terms : list string) :
  forall i w,
    model_calls (snd (warm_loop biobert ontology_terms i terms w))
    = (model_calls w ++ terms)%list.
Proof.
  induction terms as [|term rest IH]; intros i w.
  - simpl. now rewrite app_nil_r.
  - destruct (warm_loop_cons i term rest w) as [out ->].
    rewrite IH. simpl. now rewrite <- app_assoc.
Qed.

Lemma warm_loop_keys (terms : list string) :
  forall i w k,
    In k (keys (ontology_embeddings (snd (warm_loop biobert ontology_terms i terms w)))) ->
    In k (keys (ontology_embeddings w)) \/ In k terms.
Proof.
  induction terms as [|term rest IH]; intros i w k.
  - simpl. auto.
  - destruct (warm_loop_cons i term rest w) as [out ->].
    intros H. apply IH in H. simpl in H.
    destruct H as [H|H]; [|right; now right].
    destruct (biobert term); [now left|].
    rewrite DictFacts.keys_set in H. destruct H as [->|H]; [right; now left|now left].
Qed.

Lemma warm_loop_NoDup (terms : list string) :
  forall i w,
    NoDup (keys (ontology_embeddings w)) ->
    NoDup (keys (ontology_embeddings (snd (warm_loop biobert ontology_terms i terms w)))).
Proof.
  induction terms as [|term rest IH]; intros i w Hnd.
  - exact Hnd.
  - destruct (warm_loop_cons i term rest w) as [out ->].
    apply IH. simpl. destruct (biobert term); [exact Hnd|].
    now apply DictFacts.NoDup_set.
Qed.

(** What the cache holds for a key once the loop is over. *)
Lemma warm_loop_get (terms : list string) :
  forall i w k v,
    get (ontology_embeddings (snd (warm_loop biobert ontology_terms i terms w))) k = Some v
    <-> (In k terms /\ biobert k = inr v)
        \/ ((In k terms -> exists e, biobert k = inl e)
            /\ get (ontology_embeddings w) k = Some v).
Proof.
  induction terms as [|term rest IH]; intros i w k v.
  - simpl. split.
    + intros H. right. split; [intros []|exact H].
    + intros [[[] _]|[_ H]]. exact H.
  - destruct (warm_loop_cons i term rest w) as [out ->].
    rewrite IH. simpl. destruct (biobert term) as [e|e] eqn:E.
    + split.
      * intros [[Hin Hb]|[Hf Hg]]; [left; auto|].
        right. split; [|exact Hg]. intros [<-|Hin]; eauto.
      * intros [[[<-|Hin] Hb]|[Hf Hg]]; [congruence|left; auto|].
        right. split; [|exact Hg]. intros Hin. apply Hf. now right.
    + split.
      * intros [[Hin Hb]|[Hf Hg]]; [left; auto|].
        destruct (string_dec term k) as [->|Hne].
        -- rewrite DictFacts.get_set_same in Hg. left. split; [now left|congruence].
        -- rewrite DictFacts.get_set_other in Hg by exact Hne.
           right. split; [|exact Hg]. intros [Heq|Hin]; [congruence|auto].
      * intros [[Hin Hb]|[Hf Hg]].
        -- destruct (in_dec string_dec k rest) as [Hr|Hr]; [left; auto|].
           destruct Hin as [<-|Hin]; [|contradiction].
           right. split; [intros Hin; contradiction|].
           rewrite DictFacts.get_set_same. congruence.
        -- assert (Hne : term <> k).
           { intros ->. destruct (Hf (or_introl eq_refl)) as [e' He']. congruence. }
           right. split; [intros Hin; apply Hf; now right|].
           now rewrite DictFacts.get_set_other.
Qed.

(** Running the loop over a cache that already holds what the model
    returns leaves the cache as it is. *)
Lemma warm_loop_again (terms : list string) :
  forall i w,
    (forall k v, In k terms -> biobert k = inr v ->
                 get (ontology_embeddings w) k = Some v) ->
    ontology_embeddings (snd (warm_loop biobert ontology_terms i terms w))
    = ontology_embeddings w.
Proof.
  induction terms as [|term rest IH]; intros i w Hw.
  - reflexivity.
  - destruct (warm_loop_cons i term rest w) as [out ->].
    assert (Hc : match biobert term with
                 | inr e => set (ontology_embeddings w) term e
                 | inl _ => ontology_embeddings w
                 end = ontology_embeddings w).
    { destruct (biobert term) as [e|e] eqn:E; [reflexivity|].
      apply DictFacts.set_same_value. apply Hw; [now left|exact E]. }
    rewrite IH; simpl; rewrite Hc; [reflexivity|].
    intros k v Hin. apply Hw. now right.
Qed.

Lemma warm_up_cache w :
  ontology_embeddings (snd (warm_up biobert ontology_terms w))
  = ontology_embeddings
      (snd (warm_loop biobert ontology_terms 0 (keys ontology_terms)
              (mkWorld empty
                 (stdout w ++ ["Generating embeddings for ontology terms..."])%list
                 (model_calls w)))).
Proof.
  unfold warm_up, bind, print, write_embeddings, read_embeddings. simpl.
  destruct (warm_loop _ _ _ _ _) as [u w'] eqn:E. reflexivity.
Qed.

Lemma warm_up_calls w :
  model_calls (snd (warm_up biobert ontology_terms w))
  = (model_calls w ++ keys ontology_terms)%list.
Proof.
  unfold warm_up, bind, print, write_embeddings, read_embeddings. simpl.
  destruct (warm_loop _ _ _ _ _) as [u w'] eqn:E. simpl.
  change w' with (snd (u, w')). rewrite <- E. now rewrite warm_loop_calls.
Qed.

(** The cache after warm-up: exactly the ontology terms the model embeds. *)
Lemma warm_up_get w k v :
  get (ontology_embeddings (snd (warm_up biobert ontology_terms w))) k = Some v
  <-> In k (keys ontology_terms) /\ biobert k = inr v.
Proof.
  rewrite warm_up_cache, warm_loop_get. simpl. split.
  - intros [H|[_ H]]; [exact H|discriminate].
  - auto.
Qed.

Lemma warm_up_NoDup w :
  NoDup (keys (ontology_embeddings (snd (warm_up biobert ontology_terms w)))).
Proof. rewrite warm_up_cache. apply warm_loop_NoDup. constructor. Qed.

Lemma warm_up_keys w k :
  In k (keys (ontology_embeddings (snd (warm_up biobert ontology_terms w)))) ->
  In k (keys ontology_terms).
Proof.
  rewrite warm_up_cache. intros H. apply warm_loop_keys in H.
  destruct H as [[]|H]. exact H.
Qed.

End EngineFacts.

(** ** [max] over a dict of scores *)

Section MaxOfDict.

Variable score : Type.
Variable gtb : score -> score -> bool.

(** On a non-empty dict whose scores [>] orders, [max(d, key=d.get)]
    returns a key whose score no score of the dict exceeds. *)
Lemma py_max_max (d : dict score) :
  is_empty d = false ->
  ordered_scores gtb (values d) = true ->
  exists m s,
    py_max gtb (keys d) (get d) = inr m
    /\ get d m = Some s
    /\ (forall k s', get d k = Some s' -> gtb s' s = false).
Proof.
  destruct d as [|[k0 s0] d]; [discriminate|]. intros _ Hord.
  assert (Hk0 : get ((k0, s0) :: d) k0 = Some s0)
    by (simpl; now rewrite String.eqb_refl).
  destruct (max_loop_max score gtb (values ((k0, s0) :: d)) Hord
              (get ((k0, s0) :: d)) (keys d) k0 s0)
    as (m & s & Hm & Hs & Hin & HsL & Hle & Hrest).
  - exact Hk0.
  - now left.
  - intros k Hk. destruct (DictFacts.key_get_Some score ((k0, s0) :: d) k) as [s Hs].
    + now right.
    + exists s. split; [exact Hs|]. eapply DictFacts.get_Some_value; eauto.
  - exists m, s. split; [|split; [exact Hs|]].
    + unfold py_max. cbn [keys map fst]. fold (keys d). rewrite Hk0. exact Hm.
    + intros k s' Hk. pose proof (DictFacts.get_Some_key _ _ _ _ Hk) as Hkin.
      cbn [keys map fst] in Hkin. destruct Hkin as [<-|Hkin].
      * replace s' with s0 by congruence. exact Hle.
      * eapply Hrest; eauto.
Qed.

End MaxOfDict.

(** ** Facts about [disambiguate_entity] *)

Section Disambiguation.

Variables vec score : Type.
Variable biobert : string -> exn + vec.
Variable cosine_similarity : vec -> vec -> exn + score.
Variable gtb : score -> score -> bool.
Variable ontology_terms : dict (string * string).

(** The builtin [repr] on a [str]. *)
Variable py_repr : string -> string.

Implicit Types (w : world vec) (ce v : vec) (k term context : string).

(** The returned triple, as a function of the cache alone. *)
Lemma disambiguate_entity_fst term context w :
  fst (disambiguate_entity biobert cosine_similarity gtb ontology_terms py_repr term context w)
  = if is_empty (ontology_embeddings w) then none3
    else
      match biobert (candidate_text term context) with
      | inl _ => none3
      | inr ce =>
          let sims :=
            fst (similarity_loop cosine_similarity ce
                   (items (ontology_embeddings w)) empty w) in
          if is_empty sims then none3
          else
            match py_max gtb (keys sims) (get sims) with
            | inl _ => none3
            | inr m =>
                match subscript py_repr ontology_terms m with
                | inl _ => none3
                | inr entry => (Some m, Some (fst entry), Some (snd entry))
                end
            end
      end.
Proof.
  unfold disambiguate_entity, bind, read_embeddings, print, ret.
  destruct (is_empty (ontology_embeddings w)); [reflexivity|].
  unfold disambiguate_try, bind, get_embedding, bind, run_model, print, ret,
    read_embeddings.
  destruct (biobert (candidate_text term context)) as [e|ce]; [reflexivity|].
  cbn [ontology_embeddings].
  match goal with |- context [similarity_loop _ _ _ _ ?w'] =>
    rewrite (similarity_loop_fst vec score cosine_similarity ce _ empty w w');
    destruct (similarity_loop cosine_similarity ce
                (items (ontology_embeddings w)) empty w') as [sims w''] end.
  cbn [fst]. destruct (is_empty sims); [reflexivity|].
  destruct (py_max gtb (keys sims) (get sims)) as [e|m]; [reflexivity|].
  destruct (subscript py_repr ontology_terms m) as [e|entry]; reflexivity.
Qed.

(** A query leaves the cache as it is. *)
Lemma disambiguate_entity_cache term context w :
  ontology_embeddings (snd (disambiguate_entity biobert cosine_similarity gtb ontology_terms py_repr term context w)) = ontology_embeddings w.
Proof.
  unfold disambiguate_entity, bind, read_embeddings, print, ret.
  destruct (is_empty (ontology_embeddings w)); [reflexivity|].
  unfold disambiguate_try, bind, get_embedding, bind, run_model, print, ret,
    read_embeddings.
  destruct (biobert (candidate_text term context)) as [e|ce]; [reflexivity|].
  cbn [ontology_embeddings].
  match goal with |- context [similarity_loop _ _ _ _ ?w'] =>
    destruct (similarity_loop_world vec score cosine_similarity ce
                (items (ontology_embeddings w)) empty w') as [Hc _];
    destruct (similarity_loop cosine_similarity ce
                (items (ontology_embeddings w)) empty w') as [sims w''] end.
  cbn [snd ontology_embeddings] in Hc.
  destruct (is_empty sims); [exact Hc|].
  destruct (py_max gtb (keys sims) (get sims)) as [e|m]; [exact Hc|].
  destruct (subscript py_repr ontology_terms m) as [e|entry]; exact Hc.
Qed.

Lemma serve_cache (queries : list (string * string)) :
  forall w,
    ontology_embeddings
      (serve biobert cosine_similarity gtb ontology_terms py_repr queries w)
    = ontology_embeddings w.
Proof.
  induction queries as [|[term context] rest IH]; intros w; simpl.
  - reflexivity.
  - rewrite IH. apply disambiguate_entity_cache.
Qed.

(** Two states with the same cache answer a query alike. *)
Lemma disambiguate_entity_same_cache term context w1 w2 :
  ontology_embeddings w1 = ontology_embeddings w2 ->
  fst (disambiguate_entity biobert cosine_similarity gtb ontology_terms py_repr term context w1) = fst (disambiguate_entity biobert cosine_similarity gtb ontology_terms py_repr term context w2).
Proof.
  intros Hc. rewrite !disambiguate_entity_fst, Hc.
  destruct (is_empty (ontology_embeddings w2)); [reflexivity|].
  destruct (biobert (candidate_text term context)) as [e|ce]; [reflexivity|].
  now rewrite (similarity_loop_fst vec score cosine_similarity ce _ empty w1 w2).
Qed.

(** A query on a non-empty cache hands the candidate text, and nothing
    else, to the model. *)
Lemma disambiguate_entity_calls term context w :
  is_empty (ontology_embeddings w) = false ->
  model_calls (snd (disambiguate_entity biobert cosine_similarity gtb ontology_terms py_repr term context w))
  = (model_calls w ++ [candidate_text term context])%list.
Proof.
  intros Hne.
  unfold disambiguate_entity, bind, read_embeddings, print, ret. rewrite Hne.
  unfold disambiguate_try, bind, get_embedding, bind, run_model, print, ret,
    read_embeddings.
  destruct (biobert (candidate_text term context)) as [e|ce]; [reflexivity|].
  cbn [ontology_embeddings].
  match goal with |- context [similarity_loop _ _ _ _ ?w'] =>
    destruct (similarity_loop_world vec score cosine_similarity ce
                (items (ontology_embeddings w)) empty w') as [_ Hc];
    destruct (similarity_loop cosine_similarity ce
                (items (ontology_embeddings w)) empty w') as [sims w''] end.
  cbn [snd model_calls] in Hc.
  destruct (is_empty sims); [exact Hc|].
  destruct (py_max gtb (keys sims) (get sims)) as [e|m]; [exact Hc|].
  destruct (subscript py_repr ontology_terms m) as [e|entry]; exact Hc.
Qed.

(** When every cache key is an ontology term, no exception escapes the
    [try] body of [disambiguate_entity]. *)
Lemma disambiguate_try_no_exception term context w :
  (forall k, In k (keys (ontology_embeddings w)) -> In k (keys ontology_terms)) ->
  exists r,
    fst (disambiguate_try biobert cosine_similarity gtb ontology_terms py_repr term context w)
    = inr r.
Proof.
  intros Hkeys.
  unfold disambiguate_try, bind, get_embedding, bind, run_model, print, ret,
    read_embeddings.
  destruct (biobert (candidate_text term context)) as [e|ce]; [eexists; reflexivity|].
  cbn [ontology_embeddings].
  match goal with |- context [similarity_loop _ _ _ _ ?w'] =>
    pose proof (similarity_loop_keys vec score cosine_similarity ce
                  (items (ontology_embeddings w)) empty w') as Hk;
    destruct (similarity_loop cosine_similarity ce
                (items (ontology_embeddings w)) empty w') as [sims w''] end.
  cbn [fst] in Hk.
  destruct (is_empty sims) eqn:Hem; [eexists; reflexivity|].
  destruct (py_max_total score gtb sims Hem) as (m & -> & Hm).
  destruct (Hk m Hm) as [[]|Hc].
  destruct (DictFacts.key_get_Some _ ontology_terms m (Hkeys m Hc)) as [entry He].
  unfold subscript. rewrite He. eexists; reflexivity.
Qed.

(** *** The claims about a single query *)

(** C3: on an empty cache, [disambiguate_entity] returns the empty-cache
    failure ([CacheEmpty]: the triple of [None]s after the line "No ontology
    embeddings available"), for every term and context; no matched term is
    returned and the model is not called. *)
Theorem empty_cache_yields_CacheEmpty term context (out calls : list string) :
  let w := mkWorld (empty : dict vec) out calls in
  CacheEmpty w (disambiguate_entity biobert cosine_similarity gtb ontology_terms py_repr term context w)
  /\ fst (disambiguate_entity biobert cosine_similarity gtb ontology_terms py_repr term context w) = (None, None, None)
  /\ calls_during (disambiguate_entity biobert cosine_similarity gtb ontology_terms py_repr term context) w = [].
Proof.
  cbv zeta. unfold CacheEmpty, calls_during. cbn. repeat split.
  apply skipn_all.
Qed.

(** C4 (amended): when the cache is not empty and the model raises on the
    candidate text, [disambiguate_entity] returns the embedding failure
    ([EmbeddingUnavailable]): the triple of [None]s, after the model was
    called on the candidate text and its error was printed. *)
Theorem model_failure_yields_EmbeddingUnavailable term context w (e : exn) :
  is_empty (ontology_embeddings w) = false ->
  biobert (candidate_text term context) = inl e ->
  EmbeddingUnavailable (candidate_text term context) w (disambiguate_entity biobert cosine_similarity gtb ontology_terms py_repr term context w)
  /\ fst (disambiguate_entity biobert cosine_similarity gtb ontology_terms py_repr term context w) = (None, None, None).
Proof.
  intros Hne Hfail.
  assert (H : disambiguate_entity biobert cosine_similarity gtb ontology_terms py_repr term context w
              = (none3,
                 mkWorld (ontology_embeddings w)
                   (stdout w ++ [embedding_error (candidate_text term context) e])%list
                   (model_calls w ++ [candidate_text term context])%list)).
  { unfold disambiguate_entity, bind, read_embeddings, print, ret. rewrite Hne.
    unfold disambiguate_try, bind, get_embedding, bind, run_model, print, ret.
    rewrite Hfail. reflexivity. }
  split; [exists e; exact H|now rewrite H].
Qed.

(** C9: the text that is embedded is the term, one space and the context
    when the context is not empty, and the term alone when it is; on a
    non-empty cache it is the one text the query hands to the model. *)
Theorem candidate_text_is_term_space_context term :
  (forall (c : ascii) (rest : string),
      candidate_text term (String c rest) = term ++ " " ++ String c rest)
  /\ candidate_text term "" = term
  /\ (forall context (entry : string * vec) (cache : dict vec) (out calls : list string),
         calls_during (disambiguate_entity biobert cosine_similarity gtb ontology_terms py_repr term context) (mkWorld (entry :: cache) out calls)
         = [candidate_text term context]).
Proof.
  split; [reflexivity|]. split; [reflexivity|].
  intros context entry cache out calls. unfold calls_during.
  rewrite disambiguate_entity_calls by reflexivity.
  cbn [model_calls]. rewrite skipn_app, skipn_all, Nat.sub_diag. reflexivity.
Qed.

(** C10: for every term, context and state, [disambiguate_entity] returns
    either a triple whose three components are all present or the triple
    [(None, None, None)]; no exception escapes it and no triple is partly
    filled. *)
Theorem disambiguate_entity_all_or_nothing term context w :
  fst (disambiguate_entity biobert cosine_similarity gtb ontology_terms py_repr term context w) = (None, None, None)
  \/ exists m code system,
       fst (disambiguate_entity biobert cosine_similarity gtb ontology_terms py_repr term context w) = (Some m, Some code, Some system).
Proof.
  rewrite disambiguate_entity_fst.
  destruct (is_empty (ontology_embeddings w)); [now left|].
  destruct (biobert (candidate_text term context)) as [e|ce]; [now left|].
  cbv zeta.
  destruct (is_empty _); [now left|].
  destruct (py_max _ _ _) as [e|m]; [now left|].
  destruct (subscript py_repr ontology_terms m) as [e|entry]; [now left|].
  right. eauto.
Qed.

(** C8: after the import and after any number of queries, every key of the
    cache is a term of the ontology; hence the ontology lookup of the term
    the ranker selects succeeds, and no exception escapes the [try] body. *)
Theorem cache_keys_are_ontology_terms (queries : list (string * string)) :
  let w := serve biobert cosine_similarity gtb ontology_terms py_repr queries
             (imported biobert ontology_terms) in
  (forall k, In k (keys (ontology_embeddings w)) -> In k (keys ontology_terms))
  /\ (forall ce (w0 : world vec) m,
         py_max gtb
           (keys (fst (similarity_loop cosine_similarity ce
                         (items (ontology_embeddings w)) empty w0)))
           (get (fst (similarity_loop cosine_similarity ce
                        (items (ontology_embeddings w)) empty w0)))
         = inr m ->
         exists code system, subscript py_repr ontology_terms m = inr (code, system))
  /\ (forall term context,
         exists r,
           fst (disambiguate_try biobert cosine_similarity gtb ontology_terms py_repr
                  term context w)
           = inr r).
Proof.
  cbv zeta.
  assert (Hkeys : forall k,
             In k (keys (ontology_embeddings
                           (serve biobert cosine_similarity gtb ontology_terms py_repr queries
                              (imported biobert ontology_terms)))) ->
             In k (keys ontology_terms)).
  { intros k. rewrite serve_cache. unfold imported. apply warm_up_keys. }
  split; [exact Hkeys|]. split.
  - intros ce w0 m Hm.
    set (sims := fst (similarity_loop cosine_similarity ce _ empty w0)) in *.
    assert (Hin : In m (keys sims)).
    { destruct sims as [|[k0 s0] sims'] eqn:Es; [discriminate|].
      destruct (py_max_total score gtb ((k0, s0) :: sims') eq_refl) as (m' & Hm' & Hin).
      congruence. }
    apply similarity_loop_keys in Hin. destruct Hin as [[]|Hin].
    destruct (DictFacts.key_get_Some _ ontology_terms m (Hkeys m Hin)) as [[code system] He].
    exists code, system. unfold subscript. now rewrite He.
  - intros term context. now apply disambiguate_try_no_exception.
Qed.

(** *** The ranker *)

(** The term [max] selects carries the greatest similarity that was
    computed. *)
Lemma ranker_max ce (cache : dict vec) w :
  NoDup (keys cache) ->
  ordered_scores gtb
    (values (fst (similarity_loop cosine_similarity ce (items cache) empty w))) = true ->
  (exists k v s, In (k, v) cache /\ cosine_similarity ce v = inr s) ->
  exists m vm s,
    py_max gtb
      (keys (fst (similarity_loop cosine_similarity ce (items cache) empty w)))
      (get (fst (similarity_loop cosine_similarity ce (items cache) empty w)))
    = inr m
    /\ In (m, vm) cache
    /\ cosine_similarity ce vm = inr s
    /\ get (fst (similarity_loop cosine_similarity ce (items cache) empty w)) m = Some s
    /\ (forall k v s',
           In (k, v) cache -> cosine_similarity ce v = inr s' -> gtb s' s = false).
Proof.
  intros Hnd Hord Hsome.
  pose proof (similarity_loop_get vec score cosine_similarity ce (items cache) empty w)
    as Hget.
  set (sims := fst (similarity_loop cosine_similarity ce (items cache) empty w)) in *.
  assert (Hne : is_empty sims = false).
  { subst sims. apply similarity_loop_some. now right. }
  destruct (py_max_max score gtb sims Hne Hord) as (m & s & Hm & Hs & Hmax).
  pose proof Hs as Hs'. rewrite (Hget m s Hnd) in Hs'.
  destruct Hs' as [(vm & Hin & Hc)|[_ Habs]]; [|discriminate].
  exists m, vm, s. repeat split; auto.
  intros k v s' Hkv Hcs. apply (Hmax k). rewrite (Hget k s' Hnd). left. eauto.
Qed.

(** C1: for a cache (a dict, so with distinct keys) and a candidate vector
    whose computed similarities [>] orders, either every comparison raised
    and no term is selected, or the ranker selects a cached term whose score
    is the cosine similarity of the candidate with that term's vector, and
    no pair of the cache has a greater similarity with the candidate: the
    maximum is attained by the selected term. *)
Theorem ranker_selects_maximum ce (cache : dict vec) w :
  NoDup (keys cache) ->
  ordered_scores gtb
    (values (fst (similarity_loop cosine_similarity ce (items cache) empty w))) = true ->
  (fst (similarity_loop cosine_similarity ce (items cache) empty w) = []
   /\ forall k v, In (k, v) cache -> exists e, cosine_similarity ce v = inl e)
  \/ exists m vm s,
       py_max gtb
         (keys (fst (similarity_loop cosine_similarity ce (items cache) empty w)))
         (get (fst (similarity_loop cosine_similarity ce (items cache) empty w)))
       = inr m
       /\ In (m, vm) cache
       /\ cosine_similarity ce vm = inr s
       /\ get (fst (similarity_loop cosine_similarity ce (items cache) empty w)) m
          = Some s
       /\ (forall k v s',
              In (k, v) cache -> cosine_similarity ce v = inr s' -> gtb s' s = false).
Proof.
  intros Hnd Hord.
  destruct (is_empty (fst (similarity_loop cosine_similarity ce (items cache) empty w)))
    eqn:Hem.
  - left. split; [now apply DictFacts.is_empty_true|].
    intros k v Hin. destruct (cosine_similarity ce v) as [e|s] eqn:Hc; [eauto|].
    rewrite (similarity_loop_some vec score cosine_similarity ce (items cache) empty w)
      in Hem; [discriminate|].
    right. exists k, v, s. auto.
  - right. apply ranker_max; auto.
    destruct (fst (similarity_loop cosine_similarity ce (items cache) empty w))
      as [|[k0 s0] rest] eqn:Es; [discriminate|].
    assert (Hget : get (fst (similarity_loop cosine_similarity ce (items cache) empty w))
                     k0 = Some s0)
      by (rewrite Es; simpl; now rewrite String.eqb_refl).
    rewrite (similarity_loop_get vec score cosine_similarity ce (items cache) empty
               w k0 s0 Hnd) in Hget.
    destruct Hget as [(v & Hin & Hc)|[_ Habs]]; [|discriminate].
    exists k0, v, s0. auto.
Qed.

(** C2 (amended): for a term cached during warm-up whose vector can be
    compared with itself, the query [(term, "")] succeeds; the matched term
    is a cached term that is at least as similar to the term's vector as the
    term itself, with its own code and code system, and it is the term
    itself when every other cached term is strictly less similar. The
    result carries no score. *)
Theorem self_query_returns_most_similar term v (s : score) :
  let w := imported biobert ontology_terms in
  get (ontology_embeddings w) term = Some v ->
  cosine_similarity v v = inr s ->
  ordered_scores gtb
    (values (fst (similarity_loop cosine_similarity v
                    (items (ontology_embeddings w)) empty w))) = true ->
  exists m vm sm code system,
    fst (disambiguate_entity biobert cosine_similarity gtb ontology_terms py_repr term "" w) = (Some m, Some code, Some system)
    /\ get ontology_terms m = Some (code, system)
    /\ get (ontology_embeddings w) m = Some vm
    /\ cosine_similarity v vm = inr sm
    /\ gtb s sm = false
    /\ ((forall k vk sk,
            In (k, vk) (ontology_embeddings w) -> k <> term ->
            cosine_similarity v vk = inr sk -> gtb s sk = true) ->
        m = term).
Proof.
  cbv zeta. intros Hcached Hself Hord.
  set (w := imported biobert ontology_terms) in *.
  assert (Hnd : NoDup (keys (ontology_embeddings w))) by apply warm_up_NoDup.
  assert (Hin : In (term, v) (ontology_embeddings w))
    by now apply DictFacts.get_Some_In.
  pose proof Hcached as Hmodel. unfold w, imported in Hmodel.
  rewrite warm_up_get in Hmodel. destruct Hmodel as [_ Hmodel].
  destruct (ranker_max v (ontology_embeddings w) w Hnd Hord)
    as (m & vm & sm & Hm & Hmin & Hc & Hs & Hmax).
  { exists term, v, s. auto. }
  assert (Hkey : In m (keys ontology_terms)).
  { apply (warm_up_keys vec biobert ontology_terms (boot vec)).
    change m with (fst (m, vm)). now apply in_map. }
  destruct (DictFacts.key_get_Some _ ontology_terms m Hkey) as [[code system] Hentry].
  exists m, vm, sm, code, system. repeat split.
  - rewrite disambiguate_entity_fst.
    replace (is_empty (ontology_embeddings w)) with false
      by (destruct (ontology_embeddings w); [destruct Hin|reflexivity]).
    change (candidate_text term "") with term. rewrite Hmodel. cbv zeta.
    rewrite (similarity_loop_some vec score cosine_similarity v
               (items (ontology_embeddings w)) empty w)
      by (right; exists term, v, s; auto).
    unfold items in *. rewrite Hm. unfold subscript. now rewrite Hentry.
  - exact Hentry.
  - now apply DictFacts.In_get_Some.
  - exact Hc.
  - apply (Hmax term v s); auto.
  - intros Hstrict. destruct (string_dec m term) as [Heq|Hne]; [exact Heq|].
    pose proof (Hstrict m vm sm Hmin Hne Hc) as Hgt.
    rewrite (Hmax term v s Hin Hself) in Hgt. discriminate.
Qed.

(** *** Warm-up run again *)

Lemma warm_loop_cache_indep (terms : list string) :
  forall i j w w',
    ontology_embeddings w = ontology_embeddings w' ->
    ontology_embeddings (snd (warm_loop biobert ontology_terms i terms w))
    = ontology_embeddings (snd (warm_loop biobert ontology_terms j terms w')).
Proof.
  induction terms as [|term rest IH]; intros i j w w' Hc.
  - exact Hc.
  - destruct (warm_loop_cons vec biobert ontology_terms i term rest w) as [out ->].
    destruct (warm_loop_cons vec biobert ontology_terms j term rest w') as [out' ->].
    apply IH. simpl. now rewrite Hc.
Qed.

(** C6: two runs of the script on the same ontology and model answer a
    query with the same triple, and within a run a query returns the same
    triple however many queries were served before it and whatever was
    printed or embedded before: the result is a function of the term, the
    context and the cache, so that entries tied at the maximum are resolved
    the same way every time. *)
Theorem disambiguate_entity_deterministic term context :
  (forall w1 w2 : world vec,
      fst (disambiguate_entity biobert cosine_similarity gtb ontology_terms py_repr term context
             (snd (warm_up biobert ontology_terms w1)))
      = fst (disambiguate_entity biobert cosine_similarity gtb ontology_terms py_repr term context
               (snd (warm_up biobert ontology_terms w2))))
  /\ (forall queries : list (string * string),
         fst (disambiguate_entity biobert cosine_similarity gtb ontology_terms py_repr term context
                (serve biobert cosine_similarity gtb ontology_terms py_repr queries
                   (imported biobert ontology_terms)))
         = fst (disambiguate_entity biobert cosine_similarity gtb ontology_terms py_repr term
                  context (imported biobert ontology_terms)))
  /\ (forall (cache : dict vec) (out1 calls1 out2 calls2 : list string),
         fst (disambiguate_entity biobert cosine_similarity gtb ontology_terms py_repr term context
                (mkWorld cache out1 calls1))
         = fst (disambiguate_entity biobert cosine_similarity gtb ontology_terms py_repr term
                  context (mkWorld cache out2 calls2))).
Proof.
  split; [|split].
  - intros w1 w2. apply disambiguate_entity_same_cache.
    rewrite !warm_up_cache. now apply warm_loop_cache_indep.
  - intros queries. apply disambiguate_entity_same_cache. apply serve_cache.
  - intros. now apply disambiguate_entity_same_cache.
Qed.

(** C7 (amended): warm-up is idempotent in what it leaves in the cache:
    with the same ontology and the same deterministic model, a second run
    yields the cache of the first, and so does the loop alone run over the
    warm cache. Each run hands every ontology term to the model, cached or
    not. *)
Theorem warm_up_twice_same_cache w :
  let w1 := snd (warm_up biobert ontology_terms w) in
  let w2 := snd (warm_up biobert ontology_terms w1) in
  ontology_embeddings w2 = ontology_embeddings w1
  /\ len (ontology_embeddings w2) = len (ontology_embeddings w1)
  /\ (forall i (out calls : list string),
         ontology_embeddings
           (snd (warm_loop biobert ontology_terms i (keys ontology_terms)
                   (mkWorld (ontology_embeddings w1) out calls)))
         = ontology_embeddings w1)
  /\ calls_during (warm_up biobert ontology_terms) w1 = keys ontology_terms.
Proof.
  cbv zeta.
  assert (H : ontology_embeddings
                (snd (warm_up biobert ontology_terms
                        (snd (warm_up biobert ontology_terms w))))
              = ontology_embeddings (snd (warm_up biobert ontology_terms w))).
  { rewrite !warm_up_cache. now apply warm_loop_cache_indep. }
  split; [exact H|]. split; [now rewrite H|]. split.
  - intros i out calls. rewrite warm_loop_again; [reflexivity|].
    intros k v Hin Hb. cbn [ontology_embeddings]. rewrite warm_up_get. auto.
  - unfold calls_during.
    rewrite (warm_up_calls vec biobert ontology_terms
               (snd (warm_up biobert ontology_terms w))).
    rewrite skipn_app, skipn_all, Nat.sub_diag. reflexivity.
Qed.

(** When every comparison raises, the query ends at line 120. *)
Lemma all_comparisons_fail_NoMatchFound term context ce w :
  is_empty (ontology_embeddings w) = false ->
  biobert (candidate_text term context) = inr ce ->
  (forall k v, In (k, v) (ontology_embeddings w) ->
               exists e, cosine_similarity ce v = inl e) ->
  NoMatchFound (disambiguate_entity biobert cosine_similarity gtb ontology_terms py_repr term context w).
Proof.
  intros Hne Hce Hall.
  unfold NoMatchFound, disambiguate_entity, bind, read_embeddings, print, ret.
  rewrite Hne.
  unfold disambiguate_try, bind, get_embedding, bind, run_model, print, ret,
    read_embeddings.
  rewrite Hce. cbn [ontology_embeddings].
  match goal with |- context [similarity_loop _ _ _ _ ?w'] =>
    pose proof (similarity_loop_all_fail vec score cosine_similarity ce
                  (items (ontology_embeddings w)) empty w' Hall) as Hsims;
    destruct (similarity_loop cosine_similarity ce
                (items (ontology_embeddings w)) empty w') as [sims w''] end.
  cbn [fst] in Hsims. subst sims. cbn. split; [reflexivity|apply last_last].
Qed.

End Disambiguation.

(** ** Comparisons that raise *)

Section ComparisonFailures.

Variables vec score : Type.
Variable biobert : string -> exn + vec.
Variable cosine_similarity : vec -> vec -> exn + score.
Variable gtb : score -> score -> bool.
Variable ontology_terms : dict (string * string).
Variable py_repr : string -> string.

(** C5 (amended): a pair of the cache whose comparison with the candidate
    vector raises is a comparison failure: its term gets no score, while
    every pair whose comparison returns keeps its score. When every pair
    fails, the query ends with the "no similarities" failure
    ([NoMatchFound]) and the triple of [None]s. The script has no test on
    norms: what happens to a zero vector is what the comparison does with
    it. *)
Theorem failing_pairs_are_skipped (ce : vec) (w : world vec) :
  NoDup (keys (ontology_embeddings w)) ->
  (forall k v e,
      In (k, v) (ontology_embeddings w) ->
      cosine_similarity ce v = inl e ->
      get (fst (similarity_loop cosine_similarity ce
                  (items (ontology_embeddings w)) empty w)) k = None)
  /\ (forall k v s,
         In (k, v) (ontology_embeddings w) ->
         cosine_similarity ce v = inr s ->
         get (fst (similarity_loop cosine_similarity ce
                     (items (ontology_embeddings w)) empty w)) k = Some s)
  /\ ((forall k v, In (k, v) (ontology_embeddings w) ->
                   exists e, cosine_similarity ce v = inl e) ->
      forall term context,
        is_empty (ontology_embeddings w) = false ->
        biobert (candidate_text term context) = inr ce ->
        NoMatchFound
          (disambiguate_entity biobert cosine_similarity gtb ontology_terms py_repr
             term context w)).
Proof.
  intros Hnd. split; [|split].
  - intros k v e Hin He.
    destruct (get _ k) as [s|] eqn:Hs; [|reflexivity]. exfalso.
    rewrite (similarity_loop_get _ _ cosine_similarity ce
               (items (ontology_embeddings w)) empty w k s Hnd) in Hs.
    destruct Hs as [(v' & Hin' & Hc)|[_ Habs]]; [|discriminate].
    assert (v' = v).
    { apply (DictFacts.In_get_Some _ _ _ _ Hnd) in Hin.
      apply (DictFacts.In_get_Some _ _ _ _ Hnd) in Hin'. congruence. }
    subst v'. congruence.
  - intros k v s Hin Hs.
    rewrite (similarity_loop_get _ _ cosine_similarity ce
               (items (ontology_embeddings w)) empty w k s Hnd).
    left. exists v. auto.
  - intros Hall term context Hne Hce.
    now apply all_comparisons_fail_NoMatchFound with (ce := ce).
Qed.

End ComparisonFailures.

(** ** The theorems at concrete inputs *)

(** Distinctness of the keys of a concrete dict. *)
Ltac distinct_keys :=
  vm_compute; repeat constructor; simpl; intuition discriminate.

(** C1 at the candidate [[3; 4]] and a cache of two unit vectors. *)
Lemma ranker_selects_maximum_witness :
  (fst (similarity_loop Cosine.cosine_similarity [3; 4]%float
          (items [("Hypertension", [1; 0]%float); ("Diabetes", [0; 1]%float)])
          empty (boot Cosine.vector)) = []
   /\ forall k v,
        In (k, v) [("Hypertension", [1; 0]%float); ("Diabetes", [0; 1]%float)] ->
        exists e, Cosine.cosine_similarity [3; 4]%float v = inl e)
  \/ exists m vm s,
       py_max Cosine.gtb
         (keys (fst (similarity_loop Cosine.cosine_similarity [3; 4]%float
                       (items [("Hypertension", [1; 0]%float); ("Diabetes", [0; 1]%float)])
                       empty (boot Cosine.vector))))
         (get (fst (similarity_loop Cosine.cosine_similarity [3; 4]%float
                      (items [("Hypertension", [1; 0]%float); ("Diabetes", [0; 1]%float)])
                      empty (boot Cosine.vector))))
       = inr m
       /\ In (m, vm) [("Hypertension", [1; 0]%float); ("Diabetes", [0; 1]%float)]
       /\ Cosine.cosine_similarity [3; 4]%float vm = inr s
       /\ get (fst (similarity_loop Cosine.cosine_similarity [3; 4]%float
                      (items [("Hypertension", [1; 0]%float); ("Diabetes", [0; 1]%float)])
                      empty (boot Cosine.vector))) m = Some s
       /\ (forall k v s',
              In (k, v) [("Hypertension", [1; 0]%float); ("Diabetes", [0; 1]%float)] ->
              Cosine.cosine_similarity [3; 4]%float v = inr s' ->
              Cosine.gtb s' s = false).
Proof.
  apply (ranker_selects_maximum Cosine.vector float Cosine.cosine_similarity
           Cosine.gtb [3; 4]%float
           [("Hypertension", [1; 0]%float); ("Diabetes", [0; 1]%float)]
           (boot Cosine.vector)).
  - distinct_keys.
  - vm_compute. reflexivity.
Defined.

(** C2 (amended) at the term "Diabetes" with orthogonal ontology vectors. *)
Lemma self_query_returns_most_similar_witness :
  exists m vm sm code system,
    fst (Samples.run Samples.orthogonal_model Samples.two_terms "Diabetes" "")
    = (Some m, Some code, Some system)
    /\ get Samples.two_terms m = Some (code, system)
    /\ get (ontology_embeddings
              (imported Samples.orthogonal_model Samples.two_terms)) m = Some vm
    /\ Cosine.cosine_similarity [0; 1]%float vm = inr sm
    /\ Cosine.gtb 1%float sm = false
    /\ ((forall k vk sk,
            In (k, vk) (ontology_embeddings
                          (imported Samples.orthogonal_model Samples.two_terms)) ->
            k <> "Diabetes" ->
            Cosine.cosine_similarity [0; 1]%float vk = inr sk ->
            Cosine.gtb 1%float sk = true) ->
        m = "Diabetes").
Proof.
  apply (self_query_returns_most_similar Cosine.vector float
           Samples.orthogonal_model Cosine.cosine_similarity Cosine.gtb
           Samples.two_terms PyRepr.repr "Diabetes" [0; 1]%float 1%float).
  - vm_compute. reflexivity.
  - vm_compute. reflexivity.
  - vm_compute. reflexivity.
Defined.

(** C2 as stated fails: two cached terms with parallel vectors tie at the
    maximum, and the query for the second returns the first. *)
Lemma self_query_parallel_vectors_counterexample :
  get (ontology_embeddings (imported Samples.parallel_model Samples.two_terms))
    "Diabetes" = Some [2; 0]%float
  /\ matched_term
       (fst (Samples.run Samples.parallel_model Samples.two_terms "Diabetes" ""))
     = Some "Hypertension"
  /\ matched_term
       (fst (Samples.run Samples.parallel_model Samples.two_terms "Diabetes" ""))
     <> Some "Diabetes".
Proof.
  split; [vm_compute; reflexivity|].
  split; [vm_compute; reflexivity|].
  vm_compute. discriminate.
Qed.

(** C4 (amended) at a model that raises on the candidate text only. *)
Lemma model_failure_yields_EmbeddingUnavailable_witness :
  EmbeddingUnavailable (candidate_text "cold" "weather")
    (imported Samples.partial_model Samples.two_terms)
    (Samples.run Samples.partial_model Samples.two_terms "cold" "weather")
  /\ fst (Samples.run Samples.partial_model Samples.two_terms "cold" "weather")
     = (None, None, None).
Proof.
  apply (model_failure_yields_EmbeddingUnavailable Cosine.vector float
           Samples.partial_model Cosine.cosine_similarity Cosine.gtb
           Samples.two_terms PyRepr.repr "cold" "weather"
           (imported Samples.partial_model Samples.two_terms) "tokenizer error").
  - vm_compute. reflexivity.
  - vm_compute. reflexivity.
Defined.

(** C4 as stated fails: with a model that raises on every text the cache is
    empty after warm-up, and the query "Diabetes" ends with the empty-cache
    failure; the model is not called on the candidate text. *)
Lemma model_failure_on_empty_cache_counterexample :
  Samples.failing_model (candidate_text "Diabetes" "") = inl "model unavailable"
  /\ CacheEmpty (imported Samples.failing_model Samples.two_terms)
       (Samples.run Samples.failing_model Samples.two_terms "Diabetes" "")
  /\ ~ EmbeddingUnavailable (candidate_text "Diabetes" "")
         (imported Samples.failing_model Samples.two_terms)
         (Samples.run Samples.failing_model Samples.two_terms "Diabetes" "").
Proof.
  split; [reflexivity|]. split; [vm_compute; reflexivity|].
  intros [e H].
  apply (f_equal (fun out => model_calls (snd out))) in H.
  vm_compute in H. discriminate.
Qed.

(** C5 (amended) at a model whose vector for the query has three entries
    where the cached vectors have two: every comparison raises. *)
Lemma failing_pairs_are_skipped_witness :
  NoMatchFound (Samples.run Samples.mismatched_model Samples.two_terms "cold" "").
Proof.
  refine (proj2 (proj2 (failing_pairs_are_skipped Cosine.vector float
                          Samples.mismatched_model Cosine.cosine_similarity
                          Cosine.gtb Samples.two_terms PyRepr.repr [1; 2; 3]%float
                          (imported Samples.mismatched_model Samples.two_terms) _))
            _ "cold" "" _ _).
  - distinct_keys.
  - intros k v [H|[H|[]]]; inversion H; subst; eexists; vm_compute; reflexivity.
  - vm_compute. reflexivity.
  - vm_compute. reflexivity.
Defined.

(** C5 as stated fails: with a model that embeds every text as the zero
    vector, every pair of the cache has zero norm on both sides, yet each
    pair is compared without failure and gets the score 0, and the query
    returns the first cached term instead of the empty result. *)
Lemma zero_norm_pair_is_scored_counterexample :
  Cosine.norm [0; 0]%float = 0%float
  /\ Cosine.cosine_similarity [0; 0]%float [0; 0]%float = inr 0%float
  /\ get (fst (similarity_loop Cosine.cosine_similarity [0; 0]%float
                 (items (ontology_embeddings
                           (imported Samples.zero_model Samples.two_terms)))
                 empty (imported Samples.zero_model Samples.two_terms)))
       "Hypertension" = Some 0%float
  /\ fst (Samples.run Samples.zero_model Samples.two_terms "Diabetes" "")
     = (Some "Hypertension", Some "38341003", Some "SNOMED CT")
  /\ ~ NoMatchFound (Samples.run Samples.zero_model Samples.two_terms "Diabetes" "").
Proof.
  split; [vm_compute; reflexivity|].
  split; [vm_compute; reflexivity|].
  split; [vm_compute; reflexivity|].
  split; [vm_compute; reflexivity|].
  intros [H _]. vm_compute in H. discriminate.
Qed.

(** C7 as stated fails: with the script's own ontology, "Hypertension" is in
    the cache after the import, and a second warm-up hands it to the model
    again. *)
Lemma warm_up_reembeds_counterexample :
  In "Hypertension"
    (keys (ontology_embeddings
             (imported Samples.orthogonal_model Samples.ontology_terms)))
  /\ In "Hypertension"
       (calls_during (warm_up Samples.orthogonal_model Samples.ontology_terms)
          (imported Samples.orthogonal_model Samples.ontology_terms)).
Proof.
  split; vm_compute; left; reflexivity.
Qed.

(** * Further properties of [metadata_pipeline_torch_only.py] *)

(** ** Warm-up *)

Lemma set_fresh (V : Type) (d : dict V) k (v : V) :
  ~ In k (keys d) -> set d k v = (d ++ [(k, v)])%list.
Proof.
  induction d as [|[k0 v0] d IH]; simpl; intros Hnin; [reflexivity|].
  destruct (String.eqb_spec k0 k) as [->|Hne].
  - exfalso. apply Hnin. now left.
  - rewrite IH; [reflexivity|]. intros Hin. apply Hnin. now right.
Qed.

Section WarmUpFacts.

Variable vec : Type.
Variable biobert : string -> exn + vec.
Variable ontology_terms : dict (string * string).

Lemma warm_loop_closed (terms : list string) :
  forall i (w : world vec),
    NoDup terms ->
    (forall k, In k terms -> ~ In k (keys (ontology_embeddings w))) ->
    ontology_embeddings (snd (warm_loop biobert ontology_terms i terms w))
    = (ontology_embeddings w ++ flat_map (cached_entry biobert) terms)%list.
Proof.
  induction terms as [|term rest IH]; intros i w Hnd Hfresh.
  - simpl. now rewrite app_nil_r.
  - destruct (warm_loop_cons vec biobert ontology_terms i term rest w) as [out ->].
    inversion Hnd as [|? ? Hnin Hnd']; subst.
    rewrite IH; [|exact Hnd'|].
    + cbn [ontology_embeddings flat_map]. unfold cached_entry at 2.
      destruct (biobert term) as [e|v].
      * reflexivity.
      * rewrite set_fresh by (apply Hfresh; now left).
        now rewrite <- app_assoc.
    + intros k Hk. cbn [ontology_embeddings].
      assert (Hk' : ~ In k (keys (ontology_embeddings w)))
        by (apply Hfresh; now right).
      destruct (biobert term) as [e|v]; [exact Hk'|].
      rewrite DictFacts.keys_set. intros [->|Hin]; [contradiction|contradiction].
Qed.

Lemma warm_loop_stdout (terms : list string) :
  forall i (w : world vec),
    stdout (snd (warm_loop biobert ontology_terms i terms w))
    = (stdout w
       ++ flat_map (warm_lines biobert ontology_terms) (combine (seq i (List.length terms)) terms))%list.
Proof.
  induction terms as [|term rest IH]; intros i w.
  - simpl. now rewrite app_nil_r.
  - cbn [warm_loop]. unfold bind at 1. unfold print at 1. cbn [fst snd].
    unfold bind at 1. unfold get_embedding at 1. unfold bind at 1.
    unfold run_model at 1. cbn [fst snd ontology_embeddings stdout model_calls].
    cbn [List.length seq combine flat_map]. unfold warm_lines at 1. cbn [fst snd].
    destruct (biobert term) as [e|v].
    + unfold bind, print, ret. cbn [fst snd ontology_embeddings stdout model_calls].
      rewrite IH. cbn [stdout]. rewrite <- !app_assoc. reflexivity.
    + unfold ret, bind, read_embeddings, write_embeddings.
      cbn [fst snd ontology_embeddings stdout model_calls].
      rewrite IH. cbn [stdout]. rewrite <- !app_assoc. reflexivity.
Qed.

(** X1: after warm-up a term is in the cache with a vector exactly when it
    is an ontology key and the model returns that vector for it, whatever
    happened to the other terms; the cache keys are distinct and the cache is
    no larger than the ontology. *)
Theorem warm_up_caches_embedded_terms (w : world vec) :
  (forall k v,
      get (ontology_embeddings (snd (warm_up biobert ontology_terms w))) k = Some v
      <-> In k (keys ontology_terms) /\ biobert k = inr v)
  /\ NoDup (keys (ontology_embeddings (snd (warm_up biobert ontology_terms w))))
  /\ len (ontology_embeddings (snd (warm_up biobert ontology_terms w)))
     <= len ontology_terms.
Proof.
  split; [intros k v; apply warm_up_get|].
  split; [apply warm_up_NoDup|].
  unfold len. rewrite <- (length_map fst), <- (length_map fst ontology_terms).
  apply NoDup_incl_length; [apply warm_up_NoDup|].
  intros k Hk. exact (warm_up_keys vec biobert ontology_terms w k Hk).
Qed.

(** X2: when the ontology keys are distinct, the cache after warm-up is the
    list of the ontology terms the model embeds, each with its vector, in
    ontology order. *)
Theorem warm_up_cache_in_ontology_order (w : world vec) :
  NoDup (keys ontology_terms) ->
  ontology_embeddings (snd (warm_up biobert ontology_terms w))
  = flat_map (cached_entry biobert) (keys ontology_terms).
Proof.
  intros Hnd. rewrite warm_up_cache, warm_loop_closed; auto.
Qed.

(** X3: what warm-up prints: the header, then for each ontology term its
    progress line, followed exactly when the model fails on the term by the
    error line and the warning, then the summary line with the size of the
    cache over the size of the ontology. *)
Theorem warm_up_transcript (w : world vec) :
  stdout (snd (warm_up biobert ontology_terms w))
  = (stdout w
     ++ ["Generating embeddings for ontology terms..."]
     ++ flat_map (warm_lines biobert ontology_terms)
          (combine (seq 0 (len ontology_terms)) (keys ontology_terms))
     ++ [summary_line
           (len (ontology_embeddings (snd (warm_up biobert ontology_terms w))))
           (len ontology_terms)])%list.
Proof.
  rewrite warm_up_cache.
  unfold warm_up, bind, print, write_embeddings, read_embeddings.
  cbn [fst snd ontology_embeddings stdout model_calls].
  pose proof (warm_loop_stdout (keys ontology_terms) 0
                (mkWorld empty
                   (stdout w ++ ["Generating embeddings for ontology terms..."])%list
                   (model_calls w))) as Hout.
  destruct (warm_loop biobert ontology_terms 0 (keys ontology_terms) _) as [u w'].
  cbn [fst snd stdout ontology_embeddings] in *. rewrite Hout.
  unfold keys at 1. rewrite length_map. fold (len ontology_terms).
  rewrite <- !app_assoc. reflexivity.
Qed.

End WarmUpFacts.

(** ** The tie rule of [max] *)

Section FirstMaximum.

Variable score : Type.
Variable gtb : score -> score -> bool.
Variable L : list score.
Hypothesis HL : ordered_scores gtb L = true.
Variable key : string -> option score.

(** [>] is transitive through a score that is not above. *)
Lemma ordered_gt_of_not_gt x y z :
  In x L -> In y L -> In z L ->
  gtb x y = true -> gtb z y = false -> gtb x z = true.
Proof.
  intros Hx Hy Hz Hxy Hzy. destruct (gtb x z) eqn:E; [reflexivity|].
  rewrite (ordered_negtrans score gtb L HL x z y Hx Hz Hy E Hzy) in Hxy.
  discriminate.
Qed.

(** The loop invariant of [max]: the items before the current one are
    strictly below it, the items seen after it are not above it. *)
Lemma max_loop_first (it : list string) :
  forall (pre mid : list string) maxitem mv,
    key maxitem = Some mv -> In mv L ->
    (forall k, In k it -> exists s, key k = Some s /\ In s L) ->
    (forall k s', In k pre -> key k = Some s' -> In s' L /\ gtb mv s' = true) ->
    (forall k s', In k mid -> key k = Some s' -> In s' L /\ gtb s' mv = false) ->
    exists m s before after,
      max_loop gtb key maxitem (Some mv) it = inr m
      /\ key m = Some s
      /\ (pre ++ maxitem :: mid ++ it = before ++ m :: after)%list
      /\ (forall k s', In k before -> key k = Some s' -> gtb s s' = true)
      /\ (forall k s', In k after -> key k = Some s' -> gtb s' s = false).
Proof.
  induction it as [|item it IH]; intros pre mid maxitem mv Hkey Hmv Hall Hpre Hmid.
  - exists maxitem, mv, pre, mid. simpl. rewrite app_nil_r.
    repeat split; auto.
    + intros k s' Hk Hs. now apply (Hpre k s').
    + intros k s' Hk Hs. now apply (Hmid k s').
  - destruct (Hall item (or_introl eq_refl)) as (val & Hval & HvalL).
    assert (Hall' : forall k, In k it -> exists s, key k = Some s /\ In s L)
      by (intros k Hk; apply Hall; now right).
    simpl. rewrite Hval. simpl. destruct (gtb val mv) eqn:Hgt.
    + destruct (IH (pre ++ maxitem :: mid)%list [] item val Hval HvalL Hall')
        as (m & s & before & after & Hm & Hs & Hsplit & Hbefore & Hafter).
      * intros k s' Hk Hs'. apply in_app_or in Hk. destruct Hk as [Hk|[<-|Hk]].
        -- destruct (Hpre k s' Hk Hs') as [Hs'L Hlt]. split; [exact Hs'L|].
           apply ordered_gt_of_not_gt with (y := mv); auto.
           apply (ordered_asym score gtb L HL); auto.
        -- replace s' with mv by congruence. auto.
        -- destruct (Hmid k s' Hk Hs') as [Hs'L Hle]. split; [exact Hs'L|].
           apply ordered_gt_of_not_gt with (y := mv); auto.
      * intros k s' [].
      * exists m, s, before, after. repeat split; auto.
        rewrite <- Hsplit. simpl. now rewrite <- app_assoc.
    + destruct (IH pre (mid ++ [item])%list maxitem mv Hkey Hmv Hall' Hpre)
        as (m & s & before & after & Hm & Hs & Hsplit & Hbefore & Hafter).
      * intros k s' Hk Hs'. apply in_app_or in Hk. destruct Hk as [Hk|[<-|[]]].
        -- now apply (Hmid k s').
        -- replace s' with val by congruence. auto.
      * exists m, s, before, after. repeat split; auto.
        rewrite <- Hsplit. now rewrite <- app_assoc.
Qed.

End FirstMaximum.

Section TieRule.

Variable score : Type.
Variable gtb : score -> score -> bool.

(** X4: on a non-empty dict whose scores [>] orders, [max(d, key=d.get)]
    returns the first key that carries the greatest score: every key before
    it has a strictly smaller score, and no key after it has a greater one. *)
Theorem py_max_returns_first_maximum (d : dict score) :
  is_empty d = false ->
  ordered_scores gtb (values d) = true ->
  exists m s before after,
    py_max gtb (keys d) (get d) = inr m
    /\ get d m = Some s
    /\ keys d = (before ++ m :: after)%list
    /\ (forall k s', In k before -> get d k = Some s' -> gtb s s' = true)
    /\ (forall k s', In k after -> get d k = Some s' -> gtb s' s = false).
Proof.
  destruct d as [|[k0 s0] d]; [discriminate|]. intros _ Hord.
  assert (Hk0 : get ((k0, s0) :: d) k0 = Some s0)
    by (simpl; now rewrite String.eqb_refl).
  destruct (max_loop_first score gtb (values ((k0, s0) :: d)) Hord
              (get ((k0, s0) :: d)) (keys d) [] [] k0 s0)
    as (m & s & before & after & Hm & Hs & Hsplit & Hbefore & Hafter).
  - exact Hk0.
  - now left.
  - intros k Hk. destruct (DictFacts.key_get_Some score ((k0, s0) :: d) k) as [s Hs].
    + now right.
    + exists s. split; [exact Hs|]. eapply DictFacts.get_Some_value; eauto.
  - intros k s' [].
  - intros k s' [].
  - exists m, s, before, after. repeat split; auto.
    unfold py_max. cbn [keys map fst]. fold (keys d). rewrite Hk0. exact Hm.
Qed.

End TieRule.

(** ** The similarity loop and the query, effect by effect *)

Section QueryFacts.

Variables vec score : Type.
Variable biobert : string -> exn + vec.
Variable cosine_similarity : vec -> vec -> exn + score.
Variable gtb : score -> score -> bool.
Variable ontology_terms : dict (string * string).

(** The builtin [repr] on a [str]. *)
Variable py_repr : string -> string.

Implicit Types (w : world vec) (ce v : vec) (k term context : string).

Lemma world_eta w :
  mkWorld (ontology_embeddings w) (stdout w) (model_calls w) = w.
Proof. destruct w. reflexivity. Qed.

(** The state after the similarity loop: one line for each failing pair. *)
Lemma similarity_loop_snd ce (its : list (string * vec)) :
  forall (sims0 : dict score) w,
    snd (similarity_loop cosine_similarity ce its sims0 w)
    = mkWorld (ontology_embeddings w)
        (stdout w ++ flat_map (comparison_lines cosine_similarity ce) its)%list
        (model_calls w).
Proof.
  induction its as [|[k0 v0] rest IH]; intros sims0 w.
  - simpl. rewrite app_nil_r. symmetry. apply world_eta.
  - cbn [similarity_loop flat_map]. unfold comparison_lines at 1. cbn [fst snd].
    destruct (cosine_similarity ce v0) as [e|sim].
    + unfold bind, print. rewrite IH.
      cbn [ontology_embeddings stdout model_calls]. now rewrite <- app_assoc.
    + rewrite IH. reflexivity.
Qed.

Lemma similarity_loop_closed ce (its : list (string * vec)) :
  forall (sims0 : dict score) w,
    NoDup (keys its) ->
    (forall k, In k (keys its) -> ~ In k (keys sims0)) ->
    fst (similarity_loop cosine_similarity ce its sims0 w)
    = (sims0 ++ flat_map (scored_entry cosine_similarity ce) its)%list.
Proof.
  induction its as [|[k0 v0] rest IH]; intros sims0 w Hnd Hfresh.
  - simpl. now rewrite app_nil_r.
  - simpl in Hnd. inversion Hnd as [|? ? Hnin Hnd']; subst.
    cbn [similarity_loop flat_map]. unfold scored_entry at 1. cbn [fst snd].
    destruct (cosine_similarity ce v0) as [e|sim].
    + unfold bind, print. apply IH; [exact Hnd'|].
      intros k Hk. apply Hfresh. now right.
    + rewrite IH; [|exact Hnd'|].
      * rewrite set_fresh by (apply Hfresh; now left). now rewrite <- app_assoc.
      * intros k Hk. rewrite DictFacts.keys_set. intros [->|Hin]; [contradiction|].
        apply (Hfresh k); [now right|exact Hin].
Qed.

(** X5: over a cache with distinct keys, the similarity loop returns the
    scores of the pairs whose comparison succeeds, in cache order, prints
    one error line for each pair whose comparison raises, and changes
    neither the cache nor the record of model calls. *)
Theorem similarity_loop_scores_and_errors ce (cache : dict vec) w :
  NoDup (keys cache) ->
  similarity_loop cosine_similarity ce (items cache) empty w
  = (flat_map (scored_entry cosine_similarity ce) cache,
     mkWorld (ontology_embeddings w)
       (stdout w ++ flat_map (comparison_lines cosine_similarity ce) cache)%list
       (model_calls w)).
Proof.
  intros Hnd.
  rewrite (surjective_pairing (similarity_loop cosine_similarity ce (items cache) empty w)).
  rewrite similarity_loop_snd, similarity_loop_closed; auto.
Qed.

(** Where a key of [similarities] comes from. *)
Lemma similarity_loop_key_origin ce (its : list (string * vec)) :
  forall (sims0 : dict score) w k,
    In k (keys (fst (similarity_loop cosine_similarity ce its sims0 w))) ->
    In k (keys sims0)
    \/ exists v s, In (k, v) its /\ cosine_similarity ce v = inr s.
Proof.
  induction its as [|[k0 v0] rest IH]; intros sims0 w k; simpl.
  - auto.
  - destruct (cosine_similarity ce v0) as [e|sim] eqn:E.
    + unfold bind, print. intros H. apply IH in H.
      destruct H as [H|(v & s & Hin & Hc)]; [now left|right; eauto].
    + intros H. apply IH in H.
      destruct H as [H|(v & s & Hin & Hc)]; [|right; eauto].
      rewrite DictFacts.keys_set in H. destruct H as [->|H]; [right; eauto|now left].
Qed.

(** The whole output of a query whose model call succeeds, on a non-empty
    cache. *)
Lemma disambiguate_entity_embedded term context ce w :
  is_empty (ontology_embeddings w) = false ->
  biobert (candidate_text term context) = inr ce ->
  exists w',
    ontology_embeddings w' = ontology_embeddings w
    /\ model_calls w' = (model_calls w ++ [candidate_text term context])%list
    /\ stdout w'
       = (stdout w
          ++ flat_map (comparison_lines cosine_similarity ce)
               (ontology_embeddings w))%list
    /\ disambiguate_entity biobert cosine_similarity gtb ontology_terms py_repr term context w
       = let sims := fst (similarity_loop cosine_similarity ce
                            (items (ontology_embeddings w)) empty w) in
         if is_empty sims then
           (none3, mkWorld (ontology_embeddings w')
                     (stdout w' ++ ["Error: No similarities computed."])%list
                     (model_calls w'))
         else
           match py_max gtb (keys sims) (get sims) with
           | inl e =>
               (none3, mkWorld (ontology_embeddings w')
                         (stdout w' ++ [("Error in disambiguate_entity: " ++ e)%string])%list
                         (model_calls w'))
           | inr m =>
               match subscript py_repr ontology_terms m with
               | inl e =>
                   (none3, mkWorld (ontology_embeddings w')
                             (stdout w' ++ [("Error in disambiguate_entity: " ++ e)%string])%list
                             (model_calls w'))
               | inr entry => ((Some m, Some (fst entry), Some (snd entry)), w')
               end
           end.
Proof.
  intros Hne Hce.
  unfold disambiguate_entity, bind, read_embeddings, print, ret. rewrite Hne.
  unfold disambiguate_try, bind, get_embedding, bind, run_model, print, ret,
    read_embeddings.
  rewrite Hce. cbn [ontology_embeddings].
  match goal with |- context [similarity_loop _ _ _ _ ?w0] =>
    rewrite (similarity_loop_fst vec score cosine_similarity ce
               (items (ontology_embeddings w)) empty w w0);
    pose proof (similarity_loop_snd ce (items (ontology_embeddings w)) empty w0) as Hsnd;
    destruct (similarity_loop cosine_similarity ce
                (items (ontology_embeddings w)) empty w0) as [sims w'] end.
  cbn [fst snd ontology_embeddings stdout model_calls] in *.
  exists w'. rewrite Hsnd. cbn [ontology_embeddings stdout model_calls].
  repeat split.
  destruct (is_empty sims); [reflexivity|].
  destruct (py_max gtb (keys sims) (get sims)) as [e|m]; [reflexivity|].
  destruct (subscript py_repr ontology_terms m) as [e|entry]; reflexivity.
Qed.

(** A query writes neither the cache nor more than one model call. *)
Lemma disambiguate_entity_effects term context w :
  ontology_embeddings
    (snd (disambiguate_entity biobert cosine_similarity gtb ontology_terms py_repr term context w))
  = ontology_embeddings w
  /\ model_calls
       (snd (disambiguate_entity biobert cosine_similarity gtb ontology_terms py_repr
               term context w))
     = (model_calls w
        ++ (if is_empty (ontology_embeddings w) then []
            else [candidate_text term context]))%list.
Proof.
  split; [apply disambiguate_entity_cache|].
  destruct (is_empty (ontology_embeddings w)) eqn:Hem.
  - unfold disambiguate_entity, bind, read_embeddings, print, ret. rewrite Hem.
    cbn. now rewrite app_nil_r.
  - now apply disambiguate_entity_calls.
Qed.

(** X6: a query never writes the cache; it hands the candidate text to the
    model once when the cache is not empty and not at all when it is, and it
    only appends to what was printed. *)
Theorem query_leaves_cache_and_appends term context w :
  ontology_embeddings
    (snd (disambiguate_entity biobert cosine_similarity gtb ontology_terms py_repr term context w))
  = ontology_embeddings w
  /\ model_calls
       (snd (disambiguate_entity biobert cosine_similarity gtb ontology_terms py_repr
               term context w))
     = (model_calls w
        ++ (if is_empty (ontology_embeddings w) then []
            else [candidate_text term context]))%list
  /\ exists lines,
       stdout
         (snd (disambiguate_entity biobert cosine_similarity gtb ontology_terms py_repr
                 term context w))
       = (stdout w ++ lines)%list.
Proof.
  destruct (disambiguate_entity_effects term context w) as [Hc Hm].
  split; [exact Hc|]. split; [exact Hm|].
  destruct (is_empty (ontology_embeddings w)) eqn:Hem.
  - unfold disambiguate_entity, bind, read_embeddings, print, ret. rewrite Hem.
    cbn. eauto.
  - destruct (biobert (candidate_text term context)) as [e|ce] eqn:Hce.
    + unfold disambiguate_entity, bind, read_embeddings, print, ret. rewrite Hem.
      unfold disambiguate_try, bind, get_embedding, bind, run_model, print, ret.
      rewrite Hce. cbn. eauto.
    + destruct (disambiguate_entity_embedded term context ce w Hem Hce)
        as (w' & _ & _ & Hout & ->).
      cbv zeta.
      destruct (is_empty (fst (similarity_loop cosine_similarity ce
                                 (items (ontology_embeddings w)) empty w))).
      * cbn [snd stdout]. rewrite Hout, <- app_assoc. eexists. reflexivity.
      * destruct (py_max _ _ _) as [e|m].
        -- cbn [snd stdout]. rewrite Hout, <- app_assoc. eexists. reflexivity.
        -- destruct (subscript py_repr ontology_terms m) as [e|entry].
           ++ cbn [snd stdout]. rewrite Hout, <- app_assoc. eexists. reflexivity.
           ++ cbn [snd]. rewrite Hout. eexists. reflexivity.
Qed.

(** A matched term comes from a pair of the cache whose comparison with the
    embedded candidate text succeeded. *)
Lemma success_origin term context w m :
  matched_term
    (fst (disambiguate_entity biobert cosine_similarity gtb ontology_terms py_repr term context w))
  = Some m ->
  is_empty (ontology_embeddings w) = false
  /\ exists ce v s,
       biobert (candidate_text term context) = inr ce
       /\ In (m, v) (ontology_embeddings w)
       /\ cosine_similarity ce v = inr s.
Proof.
  rewrite disambiguate_entity_fst.
  destruct (is_empty (ontology_embeddings w)); [discriminate|].
  destruct (biobert (candidate_text term context)) as [e|ce]; [discriminate|].
  cbv zeta.
  destruct (is_empty (fst (similarity_loop cosine_similarity ce
                             (items (ontology_embeddings w)) empty w))) eqn:Hem;
    [discriminate|].
  destruct (py_max_total score gtb _ Hem) as (m' & Hm' & Hin). rewrite Hm'.
  destruct (subscript py_repr ontology_terms m') as [e|entry]; [discriminate|].
  unfold matched_term. cbn [fst]. intros Heq. inversion Heq; subst m'.
  split; [reflexivity|].
  apply similarity_loop_key_origin in Hin. destruct Hin as [[]|(v & s & Hv & Hs)].
  exists ce, v, s. auto.
Qed.

(** X7: a success triple is consistent: its matched term is a key of the
    cache whose vector was compared with the embedded candidate text, and
    its code and code system are those of that term's ontology entry. *)
Theorem success_names_a_cached_ontology_term term context w m code system :
  fst (disambiguate_entity biobert cosine_similarity gtb ontology_terms py_repr term context w)
  = (Some m, Some code, Some system) ->
  is_empty (ontology_embeddings w) = false
  /\ get ontology_terms m = Some (code, system)
  /\ exists ce v s,
       biobert (candidate_text term context) = inr ce
       /\ In (m, v) (ontology_embeddings w)
       /\ cosine_similarity ce v = inr s.
Proof.
  intros H.
  assert (Hm : matched_term
                 (fst (disambiguate_entity biobert cosine_similarity gtb
                         ontology_terms py_repr term context w)) = Some m)
    by now rewrite H.
  destruct (success_origin term context w m Hm) as [Hne Horigin].
  split; [exact Hne|]. split; [|exact Horigin].
  rewrite disambiguate_entity_fst, Hne in H.
  destruct (biobert (candidate_text term context)) as [e|ce]; [discriminate|].
  cbv zeta in H. destruct (is_empty _); [discriminate|].
  destruct (py_max _ _ _) as [e|m']; [discriminate|].
  unfold subscript in H.
  destruct (get ontology_terms m') as [[c sy]|] eqn:Hget; [|discriminate].
  cbn [fst snd] in H. inversion H; subst. exact Hget.
Qed.

(** X8: after the import and any number of queries, a query returns a
    matched term exactly when the cache is not empty, the model embeds the
    candidate text, and the comparison with at least one cached vector
    succeeds. *)
Theorem query_succeeds_iff (queries : list (string * string)) term context :
  matched_term
    (fst (disambiguate_entity biobert cosine_similarity gtb ontology_terms py_repr term context
            (serve biobert cosine_similarity gtb ontology_terms py_repr queries
               (imported biobert ontology_terms))))
  <> None
  <-> is_empty
        (ontology_embeddings
           (serve biobert cosine_similarity gtb ontology_terms py_repr queries
              (imported biobert ontology_terms))) = false
      /\ exists ce k v s,
           biobert (candidate_text term context) = inr ce
           /\ In (k, v)
                (ontology_embeddings
                   (serve biobert cosine_similarity gtb ontology_terms py_repr queries
                      (imported biobert ontology_terms)))
           /\ cosine_similarity ce v = inr s.
Proof.
  set (w := serve biobert cosine_similarity gtb ontology_terms py_repr queries
              (imported biobert ontology_terms)).
  assert (Hkeys : forall k, In k (keys (ontology_embeddings w)) ->
                            In k (keys ontology_terms)).
  { intros k. unfold w. rewrite serve_cache. unfold imported. apply warm_up_keys. }
  split.
  - intros Hsome.
    destruct (matched_term _) as [m|] eqn:Hm; [|congruence].
    destruct (success_origin term context w m Hm) as [Hne (ce & v & s & H1 & H2 & H3)].
    split; [exact Hne|]. exists ce, m, v, s. auto.
  - intros [Hne (ce & k & v & s & Hce & Hin & Hc)].
    rewrite disambiguate_entity_fst, Hne, Hce. cbv zeta.
    assert (Hem : is_empty (fst (similarity_loop cosine_similarity ce
                                   (items (ontology_embeddings w)) empty w)) = false).
    { apply similarity_loop_some. right. exists k, v, s. auto. }
    rewrite Hem. destruct (py_max_total score gtb _ Hem) as (m & -> & Hm).
    apply similarity_loop_keys in Hm. destruct Hm as [[]|Hm].
    destruct (DictFacts.key_get_Some _ ontology_terms m (Hkeys m Hm)) as [entry He].
    unfold subscript. rewrite He. discriminate.
Qed.

(** X9: when the term [max] selects is missing from [ontology_terms] (a
    cache key that is no ontology key), the [KeyError] is caught: the query
    returns the triple of [None]s and its last printed line is the error
    line of line 125 with the text of the exception, the [repr] of the
    missing key. *)
Theorem orphan_term_is_caught term context ce w m :
  is_empty (ontology_embeddings w) = false ->
  biobert (candidate_text term context) = inr ce ->
  py_max gtb
    (keys (fst (similarity_loop cosine_similarity ce
                  (items (ontology_embeddings w)) empty w)))
    (get (fst (similarity_loop cosine_similarity ce
                 (items (ontology_embeddings w)) empty w)))
  = inr m ->
  get ontology_terms m = None ->
  fst (disambiguate_entity biobert cosine_similarity gtb ontology_terms py_repr term context w)
  = (None, None, None)
  /\ last (stdout (snd (disambiguate_entity biobert cosine_similarity gtb
                          ontology_terms py_repr term context w))) ""
     = "Error in disambiguate_entity: " ++ py_repr m.
Proof.
  intros Hne Hce Hmax Hget.
  destruct (disambiguate_entity_embedded term context ce w Hne Hce)
    as (w' & _ & _ & _ & ->).
  cbv zeta.
  destruct (fst (similarity_loop cosine_similarity ce
                   (items (ontology_embeddings w)) empty w)) as [|kv sims] eqn:Es;
    [discriminate|].
  cbn [is_empty]. rewrite Hmax. unfold subscript. rewrite Hget.
  cbn [fst snd stdout]. split; [reflexivity|apply last_last].
Qed.

(** X10: a query depends on its term and context through the candidate
    text only: two queries with the same candidate text return the same
    triple and leave the same state. *)
Theorem query_depends_on_candidate_text t1 c1 t2 c2 w :
  candidate_text t1 c1 = candidate_text t2 c2 ->
  disambiguate_entity biobert cosine_similarity gtb ontology_terms py_repr t1 c1 w
  = disambiguate_entity biobert cosine_similarity gtb ontology_terms py_repr t2 c2 w.
Proof.
  intros H. unfold disambiguate_entity, disambiguate_try. now rewrite H.
Qed.

(** *** The example run *)

Lemma run_example_effects term context w :
  ontology_embeddings
    (snd (run_example biobert cosine_similarity gtb ontology_terms py_repr term context w))
  = ontology_embeddings w
  /\ model_calls
       (snd (run_example biobert cosine_similarity gtb ontology_terms py_repr term context w))
     = (model_calls w
        ++ (if is_empty (ontology_embeddings w) then []
            else [candidate_text term context]))%list.
Proof.
  unfold run_example, bind, print. cbn [fst snd].
  match goal with |- context [disambiguate_entity _ _ _ _ _ _ _ ?w0] =>
    destruct (disambiguate_entity_effects term context w0) as [Hc Hm];
    destruct (disambiguate_entity biobert cosine_similarity gtb ontology_terms py_repr
                term context w0) as [r w1] end.
  cbn [fst snd ontology_embeddings model_calls] in *.
  destruct (truthy (fst (fst r)));
    cbn [fst snd ontology_embeddings model_calls]; auto.
Qed.

(** X11: the loop over the examples leaves the cache as it is and hands
    the model the candidate text of each example, once and in order, when
    the cache is not empty; on an empty cache it calls the model for none. *)
Theorem examples_loop_effects (examples : list (string * string)) :
  forall w,
    ontology_embeddings
      (snd (examples_loop biobert cosine_similarity gtb ontology_terms py_repr examples w))
    = ontology_embeddings w
    /\ model_calls
         (snd (examples_loop biobert cosine_similarity gtb ontology_terms py_repr examples w))
       = (model_calls w
          ++ (if is_empty (ontology_embeddings w) then []
              else map (fun ex => candidate_text (fst ex) (snd ex)) examples))%list.
Proof.
  induction examples as [|[term context] rest IH]; intros w.
  - simpl. split; [reflexivity|]. destruct (is_empty _); now rewrite app_nil_r.
  - cbn [examples_loop]. unfold bind.
    destruct (run_example_effects term context w) as [Hc Hm].
    destruct (run_example biobert cosine_similarity gtb ontology_terms py_repr term context w)
      as [u w1].
    cbn [fst snd] in *. destruct (IH w1) as [Hc' Hm'].
    rewrite Hc', Hm', Hc, Hm. split; [reflexivity|].
    destruct (is_empty (ontology_embeddings w)).
    + now rewrite !app_nil_r.
    + cbn [map fst snd]. now rewrite <- app_assoc.
Qed.

End QueryFacts.

(** * Properties of [metadata_pipeline.py_Step1.py] *)

Section CatalogFacts.

Variable value : Type.
Variable value_eq_dec : forall x y : value, {x = y} + {x <> y}.
Variable str : value -> string.
Variable read_csv : string -> exn + dataframe value.
Variable normalization_dict : dict (string * string).

Implicit Types (s : series value) (l seen : list value) (v : value).

(** *** [dropna] and [unique] *)

Lemma In_firstn (A : Type) (n : nat) (l : list A) (x : A) :
  In x (firstn n l) -> In x l.
Proof.
  revert n. induction l as [|y l IH]; intros n; destruct n; simpl; try tauto.
  intros [H|H]; [now left|right; eauto].
Qed.

Lemma dropna_In s v : In v (dropna s) <-> In (Some v) s.
Proof.
  induction s as [|[x|] s IH]; simpl.
  - tauto.
  - rewrite IH. split; intros [H|H]; auto; left; congruence.
  - rewrite IH. split; [auto|]. intros [H|H]; [discriminate|exact H].
Qed.

Lemma unique_from_In l : forall seen v,
  In v (unique_from value_eq_dec seen l) <-> In v l /\ ~ In v seen.
Proof.
  induction l as [|x l IH]; intros seen v; simpl.
  - tauto.
  - destruct (in_dec value_eq_dec x seen) as [Hx|Hx].
    + rewrite IH. split.
      * intros [H1 H2]. auto.
      * intros [[->|H1] H2]; [contradiction|auto].
    + simpl. rewrite IH. simpl. split.
      * intros [->|[H1 H2]]; auto.
      * intros [[->|H1] H2]; [now left|].
        destruct (value_eq_dec x v) as [->|Hne]; [now left|right; tauto].
Qed.

Lemma unique_from_NoDup l : forall seen, NoDup (unique_from value_eq_dec seen l).
Proof.
  induction l as [|x l IH]; intros seen; simpl.
  - constructor.
  - destruct (in_dec value_eq_dec x seen) as [Hx|Hx]; [apply IH|].
    constructor; [|apply IH].
    rewrite unique_from_In. simpl. tauto.
Qed.

Lemma sample_values_In s v :
  In v (sample_values value_eq_dec s) -> In (Some v) s.
Proof.
  unfold sample_values, unique. intros H. apply In_firstn in H.
  apply unique_from_In in H. now apply dropna_In.
Qed.

Lemma NoDup_firstn (A : Type) (n : nat) (l : list A) : NoDup l -> NoDup (firstn n l).
Proof.
  revert n. induction l as [|x l IH]; intros n Hnd; destruct n; simpl;
    try constructor.
  - inversion Hnd; subst. intros Hin. apply In_firstn in Hin. contradiction.
  - inversion Hnd; subst. now apply IH.
Qed.

Lemma sample_values_NoDup s : NoDup (sample_values value_eq_dec s).
Proof. apply NoDup_firstn. apply unique_from_NoDup. Qed.

Lemma sample_values_length s : List.length (sample_values value_eq_dec s) <= 50.
Proof. apply firstn_le_length. Qed.

(** *** The loops as lists *)

Lemma values_loop_closed dataset_name col dc_field (vals : list value) :
  forall acc,
    values_loop str normalization_dict dataset_name col dc_field vals acc
    = (acc ++ map (catalog_row str normalization_dict dataset_name col dc_field) vals)%list.
Proof.
  induction vals as [|val rest IH]; intros acc; simpl.
  - now rewrite app_nil_r.
  - rewrite IH. now rewrite <- app_assoc.
Qed.

Lemma columns_loop_closed dataset_name (mappings : dict string)
    (columns : list (string * series value)) :
  forall acc,
    columns_loop value_eq_dec str normalization_dict dataset_name mappings columns acc
    = (acc
       ++ flat_map (column_rows value_eq_dec str normalization_dict dataset_name mappings)
            columns)%list.
Proof.
  induction columns as [|[col s] rest IH]; intros acc; simpl.
  - now rewrite app_nil_r.
  - unfold column_rows at 1. cbn [fst snd].
    destruct (get mappings col) as [dc_field|].
    + rewrite IH, values_loop_closed. now rewrite <- app_assoc.
    + apply IH.
Qed.

(** X12: when the file is read, [process_dataset] returns, for the columns
    of the frame in file order, the rows of each column that has a mapping:
    one row for each of its first 50 distinct non-missing values, in order
    of first appearance; a column without a mapping contributes nothing. *)
Theorem process_dataset_rows file_path dataset_name (mappings : dict string)
    (df : dataframe value) :
  read_csv file_path = inr df ->
  process_dataset value_eq_dec str read_csv normalization_dict
    file_path dataset_name mappings
  = inr (flat_map
           (column_rows value_eq_dec str normalization_dict dataset_name mappings) df).
Proof.
  intros Hread. unfold process_dataset. rewrite Hread.
  now rewrite columns_loop_closed.
Qed.

(** A row and the dictionary entry of its value. *)
Lemma catalog_row_fields dataset_name col dc_field v :
  let e := catalog_row str normalization_dict dataset_name col dc_field v in
  dataset e = dataset_name
  /\ original_field e = col
  /\ dublin_core_field e = dc_field
  /\ sample_value e = v
  /\ (normalized_concept e, ontology_source e)
     = match get normalization_dict (str v) with
       | Some entry => entry
       | None => ("", "")
       end.
Proof.
  unfold catalog_row, normalize_term.
  destruct (get normalization_dict (str v)) as [[code source]|]; cbn.
  - repeat split. unfold or_empty. cbn.
    destruct code, source; reflexivity.
  - repeat split.
Qed.

(** X13: every row of the catalog of a dataset carries the dataset name, a
    column of the frame that has a mapping, the Dublin Core field that
    mapping gives it, a non-missing value of that column, and as concept and
    source the entry of [normalization_dict] for the text of that value, or
    two empty strings when there is none. *)
Theorem process_dataset_rows_sound file_path dataset_name (mappings : dict string)
    (rows : list (catalog_entry value)) (e : catalog_entry value) :
  process_dataset value_eq_dec str read_csv normalization_dict
    file_path dataset_name mappings = inr rows ->
  In e rows ->
  dataset e = dataset_name
  /\ get mappings (original_field e) = Some (dublin_core_field e)
  /\ (exists df s,
         read_csv file_path = inr df
         /\ In (original_field e, s) df
         /\ In (Some (sample_value e)) s)
  /\ (normalized_concept e, ontology_source e)
     = match get normalization_dict (str (sample_value e)) with
       | Some entry => entry
       | None => ("", "")
       end.
Proof.
  intros Hrows Hin. unfold process_dataset in Hrows.
  destruct (read_csv file_path) as [err|df] eqn:Hread; [discriminate|].
  inversion Hrows; subst rows. rewrite columns_loop_closed in Hin. simpl in Hin.
  apply in_flat_map in Hin. destruct Hin as ([col s] & Hcol & Hrow).
  unfold column_rows in Hrow. cbn [fst snd] in Hrow.
  destruct (get mappings col) as [dc_field|] eqn:Hmap; [|destruct Hrow].
  apply in_map_iff in Hrow. destruct Hrow as (v & <- & Hv).
  destruct (catalog_row_fields dataset_name col dc_field v) as (H1 & H2 & H3 & H4 & H5).
  rewrite H1, H2, H3, H4. repeat split; auto.
  exists df, s. repeat split; auto. now apply sample_values_In.
Qed.

Lemma flat_map_length_le (A B : Type) (f : A -> list B) (n : nat) (l : list A) :
  (forall a, List.length (f a) <= n) ->
  List.length (flat_map f l) <= n * List.length l.
Proof.
  intros Hf. induction l as [|a l IH]; simpl; [lia|].
  rewrite length_app. specialize (Hf a). lia.
Qed.

(** X14: the catalog of a dataset has at most 50 rows for each column of
    the frame. *)
Theorem process_dataset_at_most_50_per_column file_path dataset_name
    (mappings : dict string) (df : dataframe value)
    (rows : list (catalog_entry value)) :
  read_csv file_path = inr df ->
  process_dataset value_eq_dec str read_csv normalization_dict
    file_path dataset_name mappings = inr rows ->
  List.length rows <= 50 * len df
  /\ forall col s,
       In (col, s) df ->
       List.length (column_rows value_eq_dec str normalization_dict
                      dataset_name mappings (col, s)) <= 50.
Proof.
  intros Hread Hrows. rewrite (process_dataset_rows _ _ _ _ Hread) in Hrows.
  inversion Hrows; subst rows.
  assert (Hcol : forall c : string * series value,
             List.length (column_rows value_eq_dec str normalization_dict
                            dataset_name mappings c) <= 50).
  { intros [col s]. unfold column_rows. cbn [fst snd].
    destruct (get mappings col); simpl; [|lia].
    rewrite length_map. apply sample_values_length. }
  split; [now apply flat_map_length_le|]. intros col s _. apply Hcol.
Qed.

(** The column and the value of a row. *)
Lemma column_rows_cells dataset_name (mappings : dict string) col s
    (e : catalog_entry value) :
  In e (column_rows value_eq_dec str normalization_dict dataset_name mappings (col, s)) ->
  original_field e = col /\ In (sample_value e) (sample_values value_eq_dec s).
Proof.
  unfold column_rows. cbn [fst snd].
  destruct (get mappings col) as [dc_field|]; [|intros []].
  intros H. apply in_map_iff in H. destruct H as (v & <- & Hv).
  destruct (catalog_row_fields dataset_name col dc_field v) as (_ & H2 & _ & H4 & _).
  rewrite H2, H4. auto.
Qed.

Lemma column_rows_NoDup dataset_name (mappings : dict string) col s :
  NoDup (map (fun e : catalog_entry value => (original_field e, sample_value e))
           (column_rows value_eq_dec str normalization_dict dataset_name mappings
              (col, s))).
Proof.
  unfold column_rows. cbn [fst snd].
  destruct (get mappings col) as [dc_field|]; [|constructor].
  rewrite map_map.
  pose proof (sample_values_NoDup s) as Hnd.
  induction (sample_values value_eq_dec s) as [|v vals IH]; simpl; [constructor|].
  inversion Hnd as [|? ? Hnin Hnd']; subst. constructor; [|now apply IH].
  intros Hin. apply in_map_iff in Hin. destruct Hin as (v' & Heq & Hv').
  destruct (catalog_row_fields dataset_name col dc_field v) as (_ & _ & _ & H4 & _).
  destruct (catalog_row_fields dataset_name col dc_field v') as (_ & _ & _ & H4' & _).
  inversion Heq as [[Hf Hs]]. rewrite H4, H4' in Hs. subst v'. contradiction.
Qed.

Lemma frame_rows_NoDup dataset_name (mappings : dict string)
    (columns : list (string * series value)) :
  NoDup (keys columns) ->
  NoDup (map (fun e : catalog_entry value => (original_field e, sample_value e))
           (flat_map (column_rows value_eq_dec str normalization_dict
                        dataset_name mappings) columns)).
Proof.
  induction columns as [|[col s] rest IH]; intros Hnd; simpl; [constructor|].
  simpl in Hnd. inversion Hnd as [|? ? Hnin Hnd']; subst.
  rewrite map_app. apply NoDup_app.
  - apply column_rows_NoDup.
  - now apply IH.
  - intros [c v] H1 H2.
    apply in_map_iff in H1. destruct H1 as (e1 & Heq1 & Hin1).
    apply in_map_iff in H2. destruct H2 as (e2 & Heq2 & Hin2).
    apply column_rows_cells in Hin1. destruct Hin1 as [Hc1 _].
    apply in_flat_map in Hin2. destruct Hin2 as ([col2 s2] & Hcol2 & Hin2).
    apply column_rows_cells in Hin2. destruct Hin2 as [Hc2 _].
    assert (Hsame : col = col2).
    { apply (f_equal fst) in Heq1. apply (f_equal fst) in Heq2.
      simpl in Heq1, Heq2. congruence. }
    apply Hnin. unfold keys. apply in_map_iff.
    exists (col2, s2). split; [symmetry; exact Hsame|exact Hcol2].
Qed.

(** X15: over a frame with distinct column names, no two rows of the
    catalog share both column and value; and a non-missing value of a
    column that has a mapping and at most 50 distinct values has its row. *)
Theorem process_dataset_one_row_per_value file_path dataset_name
    (mappings : dict string) (df : dataframe value)
    (rows : list (catalog_entry value)) :
  read_csv file_path = inr df ->
  NoDup (keys df) ->
  process_dataset value_eq_dec str read_csv normalization_dict
    file_path dataset_name mappings = inr rows ->
  NoDup (map (fun e : catalog_entry value => (original_field e, sample_value e)) rows)
  /\ (forall col s dc_field v,
         In (col, s) df ->
         get mappings col = Some dc_field ->
         In (Some v) s ->
         List.length (unique value_eq_dec (dropna s)) <= 50 ->
         exists e,
           In e rows
           /\ original_field e = col
           /\ sample_value e = v
           /\ dublin_core_field e = dc_field).
Proof.
  intros Hread Hnd Hrows. rewrite (process_dataset_rows _ _ _ _ Hread) in Hrows.
  inversion Hrows; subst rows. split; [now apply frame_rows_NoDup|].
  intros col s dc_field v Hcol Hmap Hv Hlen.
  exists (catalog_row str normalization_dict dataset_name col dc_field v).
  destruct (catalog_row_fields dataset_name col dc_field v) as (_ & H2 & H3 & H4 & _).
  repeat split; auto.
  apply in_flat_map. exists (col, s). split; [exact Hcol|].
  unfold column_rows. cbn [fst snd]. rewrite Hmap. apply in_map.
  unfold sample_values. rewrite firstn_all2 by exact Hlen.
  unfold unique. apply unique_from_In. split; [now apply dropna_In|intros []].
Qed.

(** *** The loop over the files *)

Variable mappings : dict (dict string).

(** The builtin [repr] on a [str]. *)
Variable py_repr : string -> string.

Lemma files_loop_prefix (fs1 : list (string * string)) :
  forall (parts : list (list (catalog_entry value))) fs2 acc,
    Forall2 (file_rows value_eq_dec str read_csv normalization_dict mappings) fs1 parts ->
    files_loop value_eq_dec str read_csv normalization_dict mappings py_repr (fs1 ++ fs2) acc
    = files_loop value_eq_dec str read_csv normalization_dict mappings py_repr fs2
        (acc ++ List.concat parts)%list.
Proof.
  induction fs1 as [|[ds path] fs1 IH]; intros parts fs2 acc Hparts.
  - inversion Hparts; subst. simpl. now rewrite app_nil_r.
  - inversion Hparts as [|? part ? parts' (mapping & Hmap & Hproc) Hrest]; subst.
    cbn [fst snd] in Hmap, Hproc. cbn [app files_loop].
    unfold subscript. rewrite Hmap. rewrite Hproc. rewrite (IH parts'); auto.
    simpl. now rewrite <- app_assoc.
Qed.

(** X16: when the loop over the files returns rows, a mapping was found and
    the file was read for every dataset, and the rows are those of the
    datasets one after the other, in the order of [files]. *)
Theorem files_loop_concatenates (fs : list (string * string)) :
  forall acc rows,
    files_loop value_eq_dec str read_csv normalization_dict mappings py_repr fs acc = inr rows ->
    exists parts,
      Forall2 (file_rows value_eq_dec str read_csv normalization_dict mappings) fs parts /\ rows = (acc ++ List.concat parts)%list.
Proof.
  induction fs as [|[ds path] fs IH]; intros acc rows H.
  - simpl in H. inversion H; subst. exists []. split; [constructor|].
    simpl. now rewrite app_nil_r.
  - cbn [files_loop] in H. unfold subscript in H.
    destruct (get mappings ds) as [mapping|] eqn:Hmap; [|discriminate].
    destruct (process_dataset value_eq_dec str read_csv normalization_dict
                path ds mapping) as [e|part] eqn:Hproc; [discriminate|].
    destruct (IH _ _ H) as (parts & Hparts & ->).
    exists (part :: parts). split.
    + constructor; [|exact Hparts]. exists mapping. auto.
    + simpl. now rewrite <- app_assoc.
Qed.

(** X17: the loop over the files is all or nothing: at the first dataset
    without a mapping it ends with the [KeyError] of that dataset name
    (whose text is the [repr] of the name), at the first file that cannot
    be read with the exception of [read_csv]; the rows of the datasets
    before it are not returned. *)
Theorem files_loop_stops_at_first_failure (fs1 fs2 : list (string * string))
    (parts : list (list (catalog_entry value))) dataset_name file_path acc :
  Forall2 (file_rows value_eq_dec str read_csv normalization_dict mappings) fs1 parts ->
  (get mappings dataset_name = None ->
   files_loop value_eq_dec str read_csv normalization_dict mappings py_repr
     (fs1 ++ (dataset_name, file_path) :: fs2) acc
   = inl (py_repr dataset_name))
  /\ (forall mapping e,
         get mappings dataset_name = Some mapping ->
         read_csv file_path = inl e ->
         files_loop value_eq_dec str read_csv normalization_dict mappings py_repr
           (fs1 ++ (dataset_name, file_path) :: fs2) acc
         = inl e).
Proof.
  intros Hparts. split.
  - intros Hmap. rewrite (files_loop_prefix fs1 parts); auto.
    cbn [files_loop]. unfold subscript. now rewrite Hmap.
  - intros mapping e Hmap Hread. rewrite (files_loop_prefix fs1 parts); auto.
    cbn [files_loop]. unfold subscript. rewrite Hmap.
    unfold process_dataset. now rewrite Hread.
Qed.

End CatalogFacts.

(** * The further properties at concrete inputs *)

(** X2 on the script's ontology. *)
Lemma warm_up_cache_in_ontology_order_witness :
  ontology_embeddings
    (snd (warm_up Samples.orthogonal_model Samples.ontology_terms (boot Cosine.vector)))
  = flat_map (cached_entry Samples.orthogonal_model) (keys Samples.ontology_terms).
Proof.
  apply (warm_up_cache_in_ontology_order Cosine.vector Samples.orthogonal_model
           Samples.ontology_terms (boot Cosine.vector)).
  distinct_keys.
Defined.

(** X4 on three scores of which the last two tie. *)
Lemma py_max_returns_first_maximum_witness :
  exists m s before after,
    py_max Cosine.gtb (keys EngineSamples.tied_scores) (get EngineSamples.tied_scores)
    = inr m
    /\ get EngineSamples.tied_scores m = Some s
    /\ keys EngineSamples.tied_scores = (before ++ m :: after)%list
    /\ (forall k s', In k before -> get EngineSamples.tied_scores k = Some s' ->
                     Cosine.gtb s s' = true)
    /\ (forall k s', In k after -> get EngineSamples.tied_scores k = Some s' ->
                     Cosine.gtb s' s = false).
Proof.
  apply (py_max_returns_first_maximum float Cosine.gtb EngineSamples.tied_scores).
  - reflexivity.
  - vm_compute. reflexivity.
Defined.

(** X5 on a cache whose second vector has a dimension of its own. *)
Lemma similarity_loop_scores_and_errors_witness :
  similarity_loop Cosine.cosine_similarity [3; 4]%float
    (items EngineSamples.cache_with_mismatch) empty (boot Cosine.vector)
  = (flat_map (scored_entry Cosine.cosine_similarity [3; 4]%float)
       EngineSamples.cache_with_mismatch,
     mkWorld (ontology_embeddings (boot Cosine.vector))
       (stdout (boot Cosine.vector)
        ++ flat_map (comparison_lines Cosine.cosine_similarity [3; 4]%float)
             EngineSamples.cache_with_mismatch)%list
       (model_calls (boot Cosine.vector))).
Proof.
  apply (similarity_loop_scores_and_errors Cosine.vector float
           Cosine.cosine_similarity [3; 4]%float EngineSamples.cache_with_mismatch
           (boot Cosine.vector)).
  distinct_keys.
Defined.

(** X7 on the query "Diabetes" with orthogonal ontology vectors. *)
Lemma success_names_a_cached_ontology_term_witness :
  is_empty (ontology_embeddings (imported Samples.orthogonal_model Samples.two_terms))
  = false
  /\ get Samples.two_terms "Diabetes" = Some ("44054006", "SNOMED CT")
  /\ exists ce v s,
       Samples.orthogonal_model (candidate_text "Diabetes" "") = inr ce
       /\ In ("Diabetes", v)
            (ontology_embeddings (imported Samples.orthogonal_model Samples.two_terms))
       /\ Cosine.cosine_similarity ce v = inr s.
Proof.
  apply (success_names_a_cached_ontology_term Cosine.vector float
           Samples.orthogonal_model Cosine.cosine_similarity Cosine.gtb
           Samples.two_terms PyRepr.repr "Diabetes" ""
           (imported Samples.orthogonal_model Samples.two_terms)
           "Diabetes" "44054006" "SNOMED CT").
  vm_compute. reflexivity.
Defined.

(** X9 on a cache whose only key is no ontology term. *)
Lemma orphan_term_is_caught_witness :
  fst (disambiguate_entity Samples.orthogonal_model Cosine.cosine_similarity Cosine.gtb
         Samples.two_terms PyRepr.repr "cold" "" EngineSamples.orphan_world)
  = (None, None, None)
  /\ last (stdout (snd (disambiguate_entity Samples.orthogonal_model
                          Cosine.cosine_similarity Cosine.gtb Samples.two_terms PyRepr.repr
                          "cold" "" EngineSamples.orphan_world))) ""
     = "Error in disambiguate_entity: 'Orphan'".
Proof.
  apply (orphan_term_is_caught Cosine.vector float Samples.orthogonal_model
           Cosine.cosine_similarity Cosine.gtb Samples.two_terms PyRepr.repr "cold" ""
           [3; 4]%float EngineSamples.orphan_world "Orphan").
  - reflexivity.
  - vm_compute. reflexivity.
  - vm_compute. reflexivity.
  - vm_compute. reflexivity.
Defined.

(** X10 on the term "cold weather" alone and the term "cold" in the context
    "weather". *)
Lemma query_depends_on_candidate_text_witness :
  disambiguate_entity Samples.orthogonal_model Cosine.cosine_similarity Cosine.gtb
    Samples.two_terms PyRepr.repr "cold weather" ""
    (imported Samples.orthogonal_model Samples.two_terms)
  = disambiguate_entity Samples.orthogonal_model Cosine.cosine_similarity Cosine.gtb
      Samples.two_terms PyRepr.repr "cold" "weather"
      (imported Samples.orthogonal_model Samples.two_terms).
Proof.
  apply (query_depends_on_candidate_text Cosine.vector float
           Samples.orthogonal_model Cosine.cosine_similarity Cosine.gtb
           Samples.two_terms PyRepr.repr "cold weather" "" "cold" "weather"
           (imported Samples.orthogonal_model Samples.two_terms)).
  reflexivity.
Defined.

(** X12 on the sample frame. *)
Lemma process_dataset_rows_witness :
  CatalogSamples.process "ehr.csv"
  = inr (flat_map
           (column_rows string_dec CatalogSamples.str CatalogSamples.normalization_dict
              "EHR" CatalogSamples.ehr_mapping)
           CatalogSamples.ehr_frame).
Proof.
  apply (process_dataset_rows string string_dec CatalogSamples.str
           CatalogSamples.read_csv CatalogSamples.normalization_dict
           "ehr.csv" "EHR" CatalogSamples.ehr_mapping CatalogSamples.ehr_frame).
  reflexivity.
Defined.

(** X13 on the first row of the sample catalog. *)
Lemma process_dataset_rows_sound_witness :
  dataset (hd (mkEntry "" "" "" "" "" "") CatalogSamples.ehr_rows) = "EHR"
  /\ get CatalogSamples.ehr_mapping
       (original_field (hd (mkEntry "" "" "" "" "" "") CatalogSamples.ehr_rows))
     = Some (dublin_core_field (hd (mkEntry "" "" "" "" "" "") CatalogSamples.ehr_rows))
  /\ (exists df s,
         CatalogSamples.read_csv "ehr.csv" = inr df
         /\ In (original_field (hd (mkEntry "" "" "" "" "" "") CatalogSamples.ehr_rows), s)
              df
         /\ In (Some (sample_value (hd (mkEntry "" "" "" "" "" "")
                                      CatalogSamples.ehr_rows))) s)
  /\ (normalized_concept (hd (mkEntry "" "" "" "" "" "") CatalogSamples.ehr_rows),
      ontology_source (hd (mkEntry "" "" "" "" "" "") CatalogSamples.ehr_rows))
     = match get CatalogSamples.normalization_dict
               (CatalogSamples.str
                  (sample_value (hd (mkEntry "" "" "" "" "" "")
                                   CatalogSamples.ehr_rows))) with
       | Some entry => entry
       | None => ("", "")
       end.
Proof.
  apply (process_dataset_rows_sound string string_dec CatalogSamples.str
           CatalogSamples.read_csv CatalogSamples.normalization_dict
           "ehr.csv" "EHR" CatalogSamples.ehr_mapping CatalogSamples.ehr_rows).
  - vm_compute. reflexivity.
  - left. reflexivity.
Defined.

(** X14 on the sample frame. *)
Lemma process_dataset_at_most_50_per_column_witness :
  List.length CatalogSamples.ehr_rows <= 50 * len CatalogSamples.ehr_frame
  /\ forall col s,
       In (col, s) CatalogSamples.ehr_frame ->
       List.length (column_rows string_dec CatalogSamples.str
                      CatalogSamples.normalization_dict "EHR"
                      CatalogSamples.ehr_mapping (col, s)) <= 50.
Proof.
  apply (process_dataset_at_most_50_per_column string string_dec CatalogSamples.str
           CatalogSamples.read_csv CatalogSamples.normalization_dict
           "ehr.csv" "EHR" CatalogSamples.ehr_mapping CatalogSamples.ehr_frame
           CatalogSamples.ehr_rows).
  - reflexivity.
  - vm_compute. reflexivity.
Defined.

(** X15 on the sample frame. *)
Lemma process_dataset_one_row_per_value_witness :
  NoDup (map (fun e : catalog_entry string => (original_field e, sample_value e))
           CatalogSamples.ehr_rows)
  /\ (forall col s dc_field v,
         In (col, s) CatalogSamples.ehr_frame ->
         get CatalogSamples.ehr_mapping col = Some dc_field ->
         In (Some v) s ->
         List.length (unique string_dec (dropna s)) <= 50 ->
         exists e,
           In e CatalogSamples.ehr_rows
           /\ original_field e = col
           /\ sample_value e = v
           /\ dublin_core_field e = dc_field).
Proof.
  apply (process_dataset_one_row_per_value string string_dec CatalogSamples.str
           CatalogSamples.read_csv CatalogSamples.normalization_dict
           "ehr.csv" "EHR" CatalogSamples.ehr_mapping CatalogSamples.ehr_frame
           CatalogSamples.ehr_rows).
  - reflexivity.
  - distinct_keys.
  - vm_compute. reflexivity.
Defined.

(** X16 on the sample tables. *)
Lemma files_loop_concatenates_witness :
  exists parts,
    Forall2 (file_rows string_dec CatalogSamples.str CatalogSamples.read_csv
               CatalogSamples.normalization_dict CatalogSamples.mappings)
      (items CatalogSamples.files) parts
    /\ CatalogSamples.ehr_rows = ([] ++ List.concat parts)%list.
Proof.
  apply (files_loop_concatenates string string_dec CatalogSamples.str
           CatalogSamples.read_csv CatalogSamples.normalization_dict
           CatalogSamples.mappings PyRepr.repr (items CatalogSamples.files) []
           CatalogSamples.ehr_rows).
  vm_compute. reflexivity.
Defined.

(** X17 on the sample tables followed by a dataset without a mapping. *)
Lemma files_loop_stops_at_first_failure_witness :
  files_loop string_dec CatalogSamples.str CatalogSamples.read_csv
    CatalogSamples.normalization_dict CatalogSamples.mappings PyRepr.repr
    ([("EHR", "ehr.csv")] ++ ("Clinical Trials", "trials.csv") :: [])%list []
  = inl "'Clinical Trials'".
Proof.
  refine (proj1 (files_loop_stops_at_first_failure string string_dec
                   CatalogSamples.str CatalogSamples.read_csv
                   CatalogSamples.normalization_dict CatalogSamples.mappings PyRepr.repr
                   [("EHR", "ehr.csv")] [] [CatalogSamples.ehr_rows]
                   "Clinical Trials" "trials.csv" [] _) _).
  - constructor; [|constructor].
    exists CatalogSamples.ehr_mapping. split; vm_compute; reflexivity.
  - vm_compute. reflexivity.
Defined.
